(** * Mango pesticide detector: the client logic, embedded and verified

    The React client (Upload.jsx, Compare.jsx, ModelComparisonChart.jsx,
    hooks/useBackendHealth.js) is embedded shallowly: a component's state
    is a record, a handler is the list of effects it performs, in program
    order, as a function of the state captured by its closure and of what
    the environment answers (the response of a fetch, the URL the browser
    mints for a blob).  Running a handler folds its effects over the world.

    The Flask detection route (server/routes/detect.py) is documented in
    README.md only; its two decision rules are modelled from the
    specification in [Module Backend]. *)

From Stdlib Require Import ZArith NArith QArith Qminmax Lia Lqa List Ascii.
From Stdlib Require Import PrimFloat.
From stdpp Require Import base option strings gmap.
Import ListNotations.

Local Open Scope string_scope.
Local Set Warnings "-register-all,-inexact-float".

(** ** JavaScript values *)

Module Js.

(** A parsed JSON document.  Numbers are rationals. *)
Inductive json : Type :=
| JNull
| JBool (b : bool)
| JNum (q : Q)
| JStr (s : string)
| JArr (items : list json)
| JObj (fields : list (string * json)).

(** A JavaScript value of the client: [None] is [undefined]. *)
Definition value : Type := option json.

(** The outcome of an expression or of an awaited promise: a value, or a
    thrown [Error] (kept by its [message]). *)
Inductive res (A : Type) : Type :=
| Ok (a : A)
| Throw (message : string).
Arguments Ok {A} a.
Arguments Throw {A} message.

Definition bind {A B} (r : res A) (k : A -> res B) : res B :=
  match r with
  | Ok a => k a
  | Throw m => Throw m
  end.

(** Own property of an object, first binding wins. *)
Fixpoint field (k : string) (fs : list (string * json)) : value :=
  match fs with
  | [] => None
  | (k', v) :: rest => if String.eqb k k' then Some v else field k rest
  end.

(** [v.k]: throws on [null] and [undefined], is [undefined] on the other
    primitives and on arrays (for the property names the client uses). *)
Definition prop (k : string) (v : value) : res value :=
  match v with
  | None | Some JNull => Throw "Cannot read properties of null"
  | Some (JObj fs) => Ok (field k fs)
  | Some _ => Ok None
  end.

(** [v?.k] *)
Definition optprop (k : string) (v : value) : value :=
  match v with
  | Some (JObj fs) => field k fs
  | _ => None
  end.

(** [Boolean(v)] *)
Definition truthy (v : value) : bool :=
  match v with
  | None | Some JNull => false
  | Some (JBool b) => b
  | Some (JNum q) => negb (Qeq_bool q 0)
  | Some (JStr s) => negb (String.eqb s "")
  | Some (JArr _) | Some (JObj _) => true
  end.

(** [a || b] *)
Definition or_else (a b : value) : value := if truthy a then a else b.

(** [s || d] on strings *)
Definition str_or (s d : string) : string :=
  if String.eqb s "" then d else s.

(** [hay.includes(needle)] on strings *)
Fixpoint str_includes (needle hay : string) : bool :=
  if String.prefix needle hay then true
  else match hay with
       | EmptyString => false
       | String _ rest => str_includes needle rest
       end.

(** [l.includes(x)] on an array of strings (strict equality) *)
Fixpoint includes (l : list string) (x : string) : bool :=
  match l with
  | [] => false
  | y :: rest => if String.eqb x y then true else includes rest x
  end.

(** [s.replace('_', ' ')]: a string pattern is replaced at its first
    occurrence only. *)
Fixpoint replace_underscore (s : string) : string :=
  match s with
  | EmptyString => EmptyString
  | String c rest =>
      if Ascii.eqb c "_"%char then String " "%char rest
      else String c (replace_underscore rest)
  end.

(** Strings are kept as the bytes of their UTF-8 encoding, where
    JavaScript counts UTF-16 code units: a character of one, two or three
    bytes is one code unit, a character of four bytes is two (a surrogate
    pair).  [utf8_width b] is the number of bytes of the character that the
    byte [b] starts. *)
Definition utf8_width (b : ascii) : nat :=
  let n := N_of_ascii b in
  if (n <? 192)%N then 1
  else if (n <? 224)%N then 2
  else if (n <? 240)%N then 3
  else 4.

(** The high surrogate of the character of four bytes [b0 b1 b2 _], as the
    three bytes of its generalised UTF-8 form: what is left of the
    character when a slice ends between the two halves of its pair. *)
Definition high_surrogate (b0 b1 b2 : ascii) : string :=
  let cp := (N.shiftl (N.land (N_of_ascii b0) 7) 18
             + N.shiftl (N.land (N_of_ascii b1) 63) 12
             + N.shiftl (N.land (N_of_ascii b2) 63) 6)%N in
  let hi := (55296 + N.shiftr (cp - 65536) 10)%N in
  String (ascii_of_N 237)
    (String (ascii_of_N (128 + N.land (N.shiftr hi 6) 63))
       (String (ascii_of_N (128 + N.land hi 63)) EmptyString)).

(** [slice_units units 0 s] is [s.slice(0, units)].  The second argument
    counts the bytes still to copy of a character already paid for. *)
Fixpoint slice_units (units pending : nat) (s : string) : string :=
  match s with
  | EmptyString => EmptyString
  | String b rest =>
      match pending with
      | S pending' => String b (slice_units units pending' rest)
      | O =>
          match units with
          | O => EmptyString
          | S units' =>
              match utf8_width b with
              | 4 =>
                  match units' with
                  | S units'' => String b (slice_units units'' 3 rest)
                  | O =>
                      match rest with
                      | String b1 (String b2 (String _ _)) =>
                          high_surrogate b b1 b2
                      | _ => String b rest
                      end
                  end
              | width => String b (slice_units units' (Nat.pred width) rest)
              end
          end
      end
  end.

(** Whether a text is made of ASCII characters only. *)
Fixpoint ascii_only (s : string) : bool :=
  match s with
  | EmptyString => true
  | String b rest => (N_of_ascii b <? 128)%N && ascii_only rest
  end.

End Js.
Import Js.

(** ** The uploaded file and its validation (Upload.jsx and Compare.jsx) *)

(** The two fields of a DOM [File] the client reads. *)
Record File : Type := mkFile { type : string; size : N }.

Definition MAX_BYTES : N := 5 * 1024 * 1024.
Definition ACCEPTED_TYPES : list string :=
  ["image/jpeg"; "image/png"; "image/webp"].


(** ** hooks/useBackendHealth.js and components/HealthBadge.jsx *)

Module Health.

Record state : Type :=
  mkState { online : bool; modelPresent : bool; checking : bool }.

(** The three [useState] initial values. *)
Definition init : state :=
  {| online := false; modelPresent := false; checking := true |}.

(** What the hook reads of the response of [fetch('/api/health')]:
    [res.ok] and the outcome of [res.json()]. *)
Record response : Type := mkResponse { ok : bool; json : res Js.json }.

Inductive effect : Type :=
| SetOnline (b : bool)
| SetModelPresent (b : bool)
| SetChecking (b : bool).

Definition perform (s : state) (e : effect) : state :=
  match e with
  | SetOnline b =>
      {| online := b; modelPresent := modelPresent s; checking := checking s |}
  | SetModelPresent b =>
      {| online := online s; modelPresent := b; checking := checking s |}
  | SetChecking b =>
      {| online := online s; modelPresent := modelPresent s; checking := b |}
  end.

Definition run (es : list effect) (s : state) : state :=
  fold_left perform es s.

(** The two awaits of the [try] block; [fetched] is the outcome of the
    [fetch] promise. *)
Definition fetch_data (fetched : res response) : res Js.json :=
  bind fetched (fun r => if negb (ok r) then Throw "bad status" else json r).

(** [check]: the setters run after the last throwing point of the [try]
    block, the [catch] block resets both flags, [finally] ends the
    checking phase. *)
Definition check (fetched : res response) : list effect :=
  match fetch_data fetched with
  | Ok data =>
      [SetOnline true;
       SetModelPresent (truthy (optprop "model_present" (Some data)))]
  | Throw _ =>
      [SetOnline false; SetModelPresent false]
  end ++ [SetChecking false].

(** The states of the hook: the initial one, and those after any number of
    [check] runs (the first on mount, the others from [setInterval]).  The
    code after the last await of a run is synchronous, so the runs' state
    updates never interleave. *)
Inductive reachable : state -> Prop :=
| reach_init : reachable init
| reach_check s fetched :
    reachable s -> reachable (run (check fetched) s).

(** HealthBadge.jsx: the badge's text. *)
Definition badge_text (s : state) : string :=
  if checking s then "Checking…"
  else if online s then
    (if modelPresent s then "API: Online • Model: OK"
     else "API: Online • Model: Missing")
  else "API: Offline".

(** HealthBadge.jsx: the badge's background class. *)
Definition badge_color (s : state) : string :=
  if checking s then "bg-gray-300"
  else if online s then "bg-green-500"
  else "bg-red-500".

End Health.

(** ** components/Upload.jsx *)

Module Upload.

(** The object given to [setResult]. *)
Record result_t : Type :=
  mkResult { label : value; confidence : value; model_used : value }.

(** [comparePayload] *)
Record compare_payload : Type :=
  mkPayload { models : value; selection : value;
              final_label : value; final_confidence : value }.

(** [JSON.stringify] keeps the properties that are not [undefined]. *)
Fixpoint defined (fs : list (string * value)) : list (string * Js.json) :=
  match fs with
  | [] => []
  | (k, Some v) :: rest => (k, v) :: defined rest
  | (_, None) :: rest => defined rest
  end.

(** The document [JSON.stringify(comparePayload)] denotes.  The session
    storage is modelled as holding documents: what [JSON.parse] gives back
    for the stored text. *)
Definition stringify (p : compare_payload) : Js.json :=
  JObj (defined
    [("models", models p);
     ("selection", selection p);
     ("final", Some (JObj (defined [("label", final_label p);
                                    ("confidence", final_confidence p)])))]).

Record state : Type :=
  mkState { file : option File;
            preview : string;
            result : option result_t;
            fullCompare : option compare_payload;
            loading : bool;
            error : string;
            dragActive : bool }.

Definition init : state :=
  {| file := None; preview := ""; result := None; fullCompare := None;
     loading := false; error := ""; dragActive := false |}.

(** What a handler does: the [useState] setters, a [fetch] with the image
    in its form, a [sessionStorage.setItem]. *)
Inductive effect : Type :=
| SetFile (f : option File)
| SetPreview (u : string)
| SetResult (r : option result_t)
| SetFullCompare (p : option compare_payload)
| SetLoading (b : bool)
| SetError (m : string)
| SetDragActive (b : bool)
| Fetch (url : string) (image : File)
| SessionSet (key : string) (doc : Js.json).

(** The component's state, the tab's session storage, the requests issued
    so far (latest first) and the number of them not yet settled. *)
Record world : Type :=
  mkWorld { ui : state;
            session : gmap string Js.json;
            requests : list (string * File);
            pending : nat }.

Definition set_ui (w : world) (s : state) : world :=
  {| ui := s; session := session w; requests := requests w;
     pending := pending w |}.

Definition perform (w : world) (e : effect) : world :=
  let s := ui w in
  match e with
  | SetFile f =>
      set_ui w {| file := f; preview := preview s; result := result s;
                  fullCompare := fullCompare s; loading := loading s;
                  error := error s; dragActive := dragActive s |}
  | SetPreview u =>
      set_ui w {| file := file s; preview := u; result := result s;
                  fullCompare := fullCompare s; loading := loading s;
                  error := error s; dragActive := dragActive s |}
  | SetResult r =>
      set_ui w {| file := file s; preview := preview s; result := r;
                  fullCompare := fullCompare s; loading := loading s;
                  error := error s; dragActive := dragActive s |}
  | SetFullCompare p =>
      set_ui w {| file := file s; preview := preview s; result := result s;
                  fullCompare := p; loading := loading s;
                  error := error s; dragActive := dragActive s |}
  | SetLoading b =>
      set_ui w {| file := file s; preview := preview s; result := result s;
                  fullCompare := fullCompare s; loading := b;
                  error := error s; dragActive := dragActive s |}
  | SetError m =>
      set_ui w {| file := file s; preview := preview s; result := result s;
                  fullCompare := fullCompare s; loading := loading s;
                  error := m; dragActive := dragActive s |}
  | SetDragActive b =>
      set_ui w {| file := file s; preview := preview s; result := result s;
                  fullCompare := fullCompare s; loading := loading s;
                  error := error s; dragActive := b |}
  | Fetch url image =>
      {| ui := s; session := session w;
         requests := (url, image) :: requests w;
         pending := S (pending w) |}
  | SessionSet key doc =>
      {| ui := s; session := <[key := doc]> (session w);
         requests := requests w; pending := pending w |}
  end.

Definition run (es : list effect) (w : world) : world :=
  fold_left perform es w.

(** The requests a handler issues. *)
Definition fetches (es : list effect) : list (string * File) :=
  flat_map (fun e => match e with
                     | Fetch url image => [(url, image)]
                     | _ => []
                     end) es.

(** The render's guards: the error card is [{error && ...}], the
    prediction card [{result && !error && ...}]. *)
Definition error_shown (s : state) : bool := negb (String.eqb (error s) "").



Definition validateFile (f : option File) : string :=
  match f with
  | None => "No file selected"
  | Some f =>
      if negb (includes ACCEPTED_TYPES (type f))
      then "Only JPG, PNG, or WEBP images are allowed."
      else if (MAX_BYTES <? size f)%N then "File is too large (max 5MB)."
      else ""
  end.

(** [applyFile(f)]; [url] is what [URL.createObjectURL(f)] returns. *)
Definition applyFile (f : option File) (url : string) : list effect :=
  [SetResult None; SetError ""] ++
  let err := validateFile f in
  if negb (String.eqb err "") then
    [SetFile None; SetPreview ""; SetError err]
  else
    SetFile f ::
    match f with
    | Some _ => [SetPreview url]
    | None => [SetPreview ""]
    end.

(** [onFileChange]: [e.target.files?.[0]], or [null]. *)
Definition onFileChange (files : list File) (url : string) : list effect :=
  applyFile (head files) url.

(** [onDrop] *)
Definition onDrop (files : list File) (url : string) : list effect :=
  SetDragActive false ::
  match files with
  | f :: _ => applyFile (Some f) url
  | [] => []
  end.

Definition onDragOver : list effect := [SetDragActive true].
Definition onDragLeave : list effect := [SetDragActive false].

(** [reset] (the file input's value is cleared too; the DOM is not part
    of the model). *)
Definition reset : list effect :=
  [SetFile None; SetPreview ""; SetResult None; SetError ""].

(** What [onSubmit] reads of the response of [fetch('/api/detect')]:
    [res.ok], [res.headers.get('content-type')] ([None] is [null]) and
    the outcomes of [res.json()] and [res.text()]. *)
Record response : Type :=
  mkResponse { ok : bool;
               content_type : option string;
               json : res Js.json;
               text : res string }.

Section Handlers.

(** [String(v)] on the documents that are not strings (the text of a
    number, of an array, [[object Object]], ...): any function will do. *)
Variable to_string : Js.json -> string.

(** [new Error(v).message] *)
Definition error_message (v : value) : string :=
  match v with
  | None => ""
  | Some (JStr s) => s
  | Some j => to_string j
  end.

(** [onSubmit] up to its first [await]. *)
Definition onSubmit_request (s : state) : list effect :=
  [SetError ""; SetResult None] ++
  match file s with
  | None => [SetError "Please select an image first."]
  | Some f => [SetLoading true; Fetch "/api/detect" f]
  end.

(** The body decoded as the content type says. *)
Definition read_body (r : response) : res Js.json :=
  if str_includes "application/json" (default "" (content_type r))
  then json r
  else bind (text r) (fun t =>
         Throw (str_or (slice_units 200 0 t)
                       "Non-JSON response from server")).

(** The rest of the [try] block, once the body is decoded.
    [storage_ok] tells whether [sessionStorage.setItem] goes through; when
    it throws, the inner [catch {}] swallows it. *)
Definition on_data (r : response) (data : Js.json) (storage_ok : bool)
  : res (list effect) :=
  if negb (ok r) then
    Throw (error_message
             (or_else (optprop "error" (Some data))
                      (Some (JStr "Request failed"))))
  else
    bind (prop "label" (Some data)) (fun label =>
    bind (prop "confidence" (Some data)) (fun confidence =>
    bind (prop "model_used" (Some data)) (fun model_used =>
    let models := optprop "models" (Some data) in
    let selection := optprop "selection" (Some data) in
    Ok (SetResult (Some {| label := label; confidence := confidence;
                           model_used := model_used |}) ::
        if truthy models && truthy selection then
          let comparePayload :=
            {| models := models; selection := selection;
               final_label := label; final_confidence := confidence |} in
          SetFullCompare (Some comparePayload) ::
          (if storage_ok
           then [SessionSet "lastCompare" (stringify comparePayload)]
           else [])
        else [])))).

Definition try_block (fetched : res response) (storage_ok : bool)
  : res (list effect) :=
  bind fetched (fun r =>
  bind (read_body r) (fun data => on_data r data storage_ok)).

(** [onSubmit] from the settlement of the [fetch] on: the [try] block,
    [catch] and [finally]. *)
Definition onSubmit_settle (fetched : res response) (storage_ok : bool)
  : list effect :=
  match try_block fetched storage_ok with
  | Ok es => es
  | Throw message => [SetError (str_or message "Request failed")]
  end ++ [SetLoading false].

(** A whole run of [onSubmit] from the state [s] of the render it was
    created in.  Without a file it returns before the [try]. *)
Definition onSubmit (s : state) (fetched : res response) (storage_ok : bool)
  : list effect :=
  onSubmit_request s ++
  match file s with
  | None => []
  | Some _ => onSubmit_settle fetched storage_ok
  end.

(** Whether the request of a run went through: the [try] block ended
    without a throw. *)
Definition succeeded (fetched : res response) (storage_ok : bool) : bool :=
  match try_block fetched storage_ok with
  | Ok _ => true
  | Throw _ => false
  end.

(** *** The form as a transition system *)

(** The form and the health hook it mounts. *)
Record app : Type := mkApp { w : world; health : Health.state }.

Definition app_init : app :=
  {| w := {| ui := init; session := ∅; requests := []; pending := 0 |};
     health := Health.init |}.

(** The submit button's [disabled] attribute. *)
Definition submit_disabled (a : app) : bool :=
  loading (ui (w a)) || negb (Health.online (health a))
  || Health.checking (health a).

(** One mounted form.  A submit event reaches the form only while its
    button is enabled; a pending request settles; the other handlers and
    the health checks run at any time.  (Navigation, which unmounts the
    form, is in [page_step] below.) *)
Inductive step : app -> app -> Prop :=
| step_submit a :
    submit_disabled a = false ->
    step a {| w := run (onSubmit_request (ui (w a))) (w a);
              health := health a |}
| step_settle a fetched storage_ok :
    pending (w a) <> 0 ->
    step a {| w := (let w' := run (onSubmit_settle fetched storage_ok) (w a) in
                    {| ui := ui w'; session := session w';
                       requests := requests w';
                       pending := pred (pending w') |});
              health := health a |}
| step_applyFile a f url :
    step a {| w := run (applyFile f url) (w a); health := health a |}
| step_drop a files url :
    step a {| w := run (onDrop files url) (w a); health := health a |}
| step_drag a b :
    step a {| w := run [SetDragActive b] (w a); health := health a |}
| step_reset a :
    step a {| w := run reset (w a); health := health a |}
| step_health a fetched :
    step a {| w := w a;
              health := Health.run (Health.check fetched) (health a) |}.

Inductive reachable : app -> Prop :=
| reach_init : reachable app_init
| reach_step a a' : reachable a -> step a a' -> reachable a'.

(** *** The page that hosts the form *)

(** App.jsx renders the form on the route [/] only.  Leaving the route
    unmounts it; nothing aborts its request, which stays pending; coming
    back mounts a new form in its initial state over the same session
    storage.  [current] is the mounted form or, while none is mounted, the
    one the next mount starts with; [orphans] counts the pending requests
    of forms no longer mounted. *)
Record page : Type :=
  mkPage { mounted : bool; current : app; orphans : nat }.

Definition page_init : page :=
  {| mounted := true; current := app_init; orphans := 0 |}.

(** The form a mount starts with: every [useState] at its initial value. *)
Definition fresh (w0 : world) : app :=
  {| w := {| ui := init; session := session w0; requests := requests w0;
             pending := 0 |};
     health := Health.init |}.

(** The settlement of the request of an unmounted form: its setters no
    longer do anything, its session write still goes through. *)
Definition orphan_settle (fetched : res response) (storage_ok : bool)
    (a : app) : app :=
  let w' := run (onSubmit_settle fetched storage_ok) (w a) in
  {| w := {| ui := ui (w a); session := session w';
             requests := requests (w a); pending := pending (w a) |};
     health := health a |}.

Inductive page_step : page -> page -> Prop :=
| page_form p a' :
    mounted p = true -> step (current p) a' ->
    page_step p {| mounted := true; current := a'; orphans := orphans p |}
| page_leave p :
    mounted p = true ->
    page_step p {| mounted := false;
                   current := fresh (w (current p));
                   orphans := orphans p + pending (w (current p)) |}
| page_return p :
    mounted p = false ->
    page_step p {| mounted := true; current := current p;
                   orphans := orphans p |}
| page_orphan p fetched storage_ok :
    orphans p <> 0 ->
    page_step p {| mounted := mounted p;
                   current := orphan_settle fetched storage_ok (current p);
                   orphans := pred (orphans p) |}.

Inductive page_reachable : page -> Prop :=
| page_reach_init : page_reachable page_init
| page_reach_step p p' :
    page_reachable p -> page_step p p' -> page_reachable p'.

(** The upload requests awaiting their response. *)
Definition in_flight (p : page) : nat :=
  pending (w (current p)) + orphans p.

End Handlers.

(** Between submits the form is idle (not loading, nothing pending) or
    waits for its one request. *)
Definition idle_or_waiting (a : app) : Prop :=
  (loading (ui (w a)) = false
   /\ pending (w a) = 0)
  \/ (loading (ui (w a)) = true
      /\ pending (w a) = 1).

(** The submit button's label. *)
Definition submit_label (a : app) : string :=
  if loading (ui (w a)) then "Detecting..."
  else if Health.checking (health a) then "Checking API…"
  else if negb (Health.online (health a)) then "API offline"
  else "Detect Pesticide".

(** The guard of the card that says the model was not found:
    [!error && !loading && !checking && online && !modelPresent]. *)
Definition model_missing_shown (a : app) : bool :=
  String.eqb (error (ui (w a))) ""
  && negb (loading (ui (w a)))
  && negb (Health.checking (health a))
  && Health.online (health a)
  && negb (Health.modelPresent (health a)).

End Upload.

(** ** pages/Compare.jsx *)

Module Compare.

(** [result] holds the comparison document; [None] is the [null] it starts
    with.  The object handed over by the Upload form is kept as the
    document it serialises to: reading a property that is [undefined] and
    reading an absent one give the same. *)
Record state : Type :=
  mkState { file : option File;
            preview : string;
            loading : bool;
            error : string;
            result : option Js.json }.

Definition init : state :=
  {| file := None; preview := ""; loading := false; error := "";
     result := None |}.

Inductive effect : Type :=
| SetFile (f : option File)
| SetPreview (u : string)
| SetLoading (b : bool)
| SetError (m : string)
| SetResult (r : option Js.json)
| SessionSet (key : string) (doc : Js.json).

Record world : Type :=
  mkWorld { ui : state; session : gmap string Js.json }.

Definition perform (w : world) (e : effect) : world :=
  let s := ui w in
  match e with
  | SetFile f =>
      {| ui := {| file := f; preview := preview s; loading := loading s;
                  error := error s; result := result s |};
         session := session w |}
  | SetPreview u =>
      {| ui := {| file := file s; preview := u; loading := loading s;
                  error := error s; result := result s |};
         session := session w |}
  | SetLoading b =>
      {| ui := {| file := file s; preview := preview s; loading := b;
                  error := error s; result := result s |};
         session := session w |}
  | SetError m =>
      {| ui := {| file := file s; preview := preview s; loading := loading s;
                  error := m; result := result s |};
         session := session w |}
  | SetResult r =>
      {| ui := {| file := file s; preview := preview s; loading := loading s;
                  error := error s; result := r |};
         session := session w |}
  | SessionSet key doc =>
      {| ui := s; session := <[key := doc]> (session w) |}
  end.

Definition run (es : list effect) (w : world) : world :=
  fold_left perform es w.

(** The effect hook on [location.state]: [passed] is
    [location.state.compareResult] when there is one; [storage_ok] tells
    whether the session storage can be used (its throws are swallowed). *)
Definition load_result (passed : option Upload.compare_payload)
    (stored : gmap string Js.json) (storage_ok : bool) : list effect :=
  match passed with
  | Some p =>
      SetResult (Some (Upload.stringify p)) ::
      (if storage_ok then [SessionSet "lastCompare" (Upload.stringify p)]
       else [])
  | None =>
      if storage_ok then
        match stored !! "lastCompare" with
        | Some saved => [SetResult (Some saved)]
        | None => []
        end
      else []
  end.

(** [onFile(f)]; [url] is what [URL.createObjectURL(f)] returns. *)
Definition onFile (f : option File) (url : string) : list effect :=
  [SetError ""; SetResult None] ++
  match f with
  | None => [SetFile None; SetPreview ""]
  | Some f =>
      if negb (includes ACCEPTED_TYPES (type f)) then
        [SetError "Only JPG, PNG, or WEBP images are allowed."]
      else if (MAX_BYTES <? size f)%N then
        [SetError "File is too large (max 5MB)."]
      else
        [SetFile (Some f); SetPreview url]
  end.

Section Handlers.

(** [String(v)] on the documents that are not strings, as for the Upload
    form. *)
Variable to_string : Js.json -> string.

(** [onSubmit] up to its first [await]: the effects, and the request it
    issues if any (the URL and the image of its form). *)
Definition onSubmit_request (s : state)
  : list effect * option (string * File) :=
  match file s with
  | None => ([SetError "Please choose an image."], None)
  | Some f =>
      ([SetLoading true; SetError ""; SetResult None],
       Some ("/api/compare-image", f))
  end.

(** [data]: the decoded body, or an object holding the text under
    [error]. *)
Definition read_data (r : Upload.response) : res Js.json :=
  if str_includes "application/json" (default "" (Upload.content_type r))
  then Upload.json r
  else bind (Upload.text r) (fun t => Ok (JObj [("error", JStr t)])).

Definition try_block (fetched : res Upload.response) : res (list effect) :=
  bind fetched (fun r =>
  bind (read_data r) (fun data =>
  if negb (Upload.ok r) then
    Throw (Upload.error_message to_string
             (or_else (optprop "error" (Some data))
                      (Some (JStr "Request failed"))))
  else Ok [SetResult (Some data)])).

(** [onSubmit] from the settlement of the [fetch] on. *)
Definition onSubmit_settle (fetched : res Upload.response) : list effect :=
  match try_block fetched with
  | Ok es => es
  | Throw message => [SetError (str_or message "Request failed")]
  end ++ [SetLoading false].

(** A whole run of [onSubmit] from the state [s] of its render. *)
Definition onSubmit (s : state) (fetched : res Upload.response)
  : list effect :=
  fst (onSubmit_request s) ++
  match snd (onSubmit_request s) with
  | None => []
  | Some _ => onSubmit_settle fetched
  end.

End Handlers.

(** One figure of the chart: [result.models?.m?.confidence || 0]. *)
Definition bar (result : option Js.json) (m : string) : value :=
  or_else (optprop "confidence" (optprop m (optprop "models" result)))
          (Some (JNum 0)).

(** [chart]: the data of the per-image chart, [None] for [null]. *)
Definition chart (result : option Js.json) : option (list value) :=
  if truthy result
  then Some [bar result "cnn"; bar result "svm"; bar result "random_forest"]
  else None.

End Compare.

(** ** components/ModelComparisonChart.jsx *)

Module Chart.

(** The payload of [/api/models/comparison], as far as the chart reads it:
    [data.models?.cnn?.accuracy] and its siblings, numbers in double
    precision, [None] when a link of the chain is missing, and
    [data.best?.name]. *)
Record comparison : Type :=
  mkComparison { cnn_accuracy : option float;
                 svm_accuracy : option float;
                 random_forest_accuracy : option float;
                 best_name : option string }.

(** A number is falsy when it is 0, -0 or NaN. *)
Definition falsy_number (x : float) : bool :=
  PrimFloat.eqb x 0 || PrimFloat.is_nan x.

(** [(x || 0) * 100], in double precision. *)
Definition percent (x : option float) : float :=
  (match x with
   | Some q => if falsy_number q then 0 else q
   | None => 0
   end * 100)%float.



(** The component's two state variables. *)
Record state : Type := mkState { data : option Js.json; error : string }.

Definition init : state := {| data := None; error := "" |}.

Inductive effect : Type :=
| SetData (d : Js.json)
| SetError (m : string).

Definition perform (s : state) (e : effect) : state :=
  match e with
  | SetData d => {| data := Some d; error := error s |}
  | SetError m => {| data := data s; error := m |}
  end.

Definition run (es : list effect) (s : state) : state :=
  fold_left perform es s.

Section Effect.

Variable to_string : Js.json -> string.

(** What the promise chain computes before touching the state: the
    payload, or the error it throws. *)
Definition fetch_payload (fetched : res Upload.response) : res Js.json :=
  bind fetched (fun r =>
  bind (if str_includes "application/json"
             (default "" (Upload.content_type r))
        then Upload.json r
        else bind (Upload.text r) (fun t => Ok (JObj [("error", JStr t)])))
       (fun payload =>
  if negb (Upload.ok r) then
    Throw (Upload.error_message to_string
             (or_else (optprop "error" (Some payload))
                      (Some (JStr "Failed to load model comparison"))))
  else Ok payload)).

(** The effect hook's promise chain; [mounted] is the flag its cleanup
    clears. *)
Definition load (fetched : res Upload.response) (mounted : bool)
  : list effect :=
  match fetch_payload fetched with
  | Ok payload => if mounted then [SetData payload] else []
  | Throw message => if mounted then [SetError message] else []
  end.

End Effect.

(** What the component returns: the error card, nothing, or the chart
    card. *)
Inductive view : Type :=
| ErrorCard (message : string)
| Nothing
| ChartCard (payload : Js.json).

Definition render (s : state) : view :=
  if negb (String.eqb (error s) "") then ErrorCard (error s)
  else match data s with
       | Some d => if truthy (Some d) then ChartCard d else Nothing
       | None => Nothing
       end.

(** The badge naming the best model: [best && ... best.replace('_', ' ')]. *)
Definition best_badge (c : comparison) : option string :=
  match best_name c with
  | Some best =>
      if String.eqb best "" then None else Some (replace_underscore best)
  | None => None
  end.

End Chart.

(** ** The detection route (server/routes/detect.py) *)

Module Backend.

Inductive model : Type := CNN | SVM | RandomForest.

(** What a classifier answers for an image: a label and a confidence, in
    percent. *)
Record prediction : Type := mkPrediction { label : string; confidence : Q }.

Definition Qlt_bool (x y : Q) : bool := negb (Qle_bool y x).

(** Modelled from the spec: server/routes/detect.py, which holds the
    selection among the three models, is missing from the sources.  The
    spec's rule is "choose the model with highest validation accuracy;
    break ties by highest confidence on this image": a challenger takes
    over when its validation accuracy is higher, or equal with a higher
    confidence on the image.  [acc] is the table of precomputed validation
    accuracies, [conf] the confidences on the image. *)
Definition better (acc conf : model -> Q) (champion challenger : model)
  : model :=
  if Qlt_bool (acc champion) (acc challenger) then challenger
  else if Qeq_bool (acc champion) (acc challenger)
          && Qlt_bool (conf champion) (conf challenger) then challenger
  else champion.

Definition select_model (acc conf : model -> Q) : model :=
  fold_left (better acc conf) [SVM; RandomForest] CNN.

Definition max_confidence (conf : model -> Q) : Q :=
  Qmax (Qmax (conf CNN) (conf SVM)) (conf RandomForest).

Definition average_confidence (conf : model -> Q) : Q :=
  ((conf CNN + conf SVM + conf RandomForest) / 3)%Q.

(** Modelled from the spec: [_validate_mango_image] of
    server/routes/detect.py is missing from the sources (README.md gives
    its signature only).  The spec's rule is "reject if max confidence
    < 50% or average confidence < 40%". *)
Definition validate_mango_image (conf : model -> Q) : bool :=
  negb (Qlt_bool (max_confidence conf) 50
        || Qlt_bool (average_confidence conf) 40).

Inductive detection : Type :=
| NotMango
| Detected (label : string) (confidence : Q) (model_used : model).

(** Modelled from the spec: the detection operation of
    server/routes/detect.py, missing from the sources: the image is
    rejected by the rule above, otherwise the selected model's label and
    confidence are returned. *)
Definition detect (acc : model -> Q) (predict : model -> prediction)
  : detection :=
  let conf := fun m => confidence (predict m) in
  if validate_mango_image conf then
    let m := select_model acc conf in
    Detected (label (predict m)) (confidence (predict m)) m
  else NotMango.

End Backend.

(** * Properties *)

(** ** Facts about the JavaScript primitives *)

Lemma includes_elem_of (l : list string) (x : string) :
  includes l x = true <-> x ∈ l.
Proof.
  induction l as [|y rest IH]; simpl.
  - split; [discriminate | intros H; inversion H].
  - destruct (String.eqb_spec x y) as [->|Hne].
    + split; [intros _; left | reflexivity].
    + rewrite IH. split; [right; assumption|].
      intros H. inversion H; subst; [congruence | assumption].
Qed.

Lemma str_or_nonempty (s d : string) : d <> "" -> str_or s d <> "".
Proof.
  unfold str_or. destruct (String.eqb_spec s ""); congruence.
Qed.

(** ** File validation *)

Lemma accepted_type_iff (t : string) :
  includes ACCEPTED_TYPES t = true <->
  t = "image/jpeg" \/ t = "image/png" \/ t = "image/webp".
Proof.
  rewrite includes_elem_of. unfold ACCEPTED_TYPES.
  rewrite !elem_of_cons, elem_of_nil. tauto.
Qed.


Lemma too_large_iff (n : N) :
  (MAX_BYTES <? n)%N = true <-> (5 * 1024 * 1024 < n)%N.
Proof. rewrite N.ltb_lt. reflexivity. Qed.

(** The verdict of [validateFile] on a file, by cases on the two tests of
    the source. *)
Lemma validateFile_cases (f : File) :
  (includes ACCEPTED_TYPES (type f) = false /\
   Upload.validateFile (Some f) = "Only JPG, PNG, or WEBP images are allowed.")
  \/ (includes ACCEPTED_TYPES (type f) = true /\ (MAX_BYTES <? size f)%N = true /\
      Upload.validateFile (Some f) = "File is too large (max 5MB).")
  \/ (includes ACCEPTED_TYPES (type f) = true /\ (MAX_BYTES <? size f)%N = false /\
      Upload.validateFile (Some f) = "").
Proof.
  unfold Upload.validateFile.
  destruct (includes ACCEPTED_TYPES (type f)); simpl; [|tauto].
  destruct (MAX_BYTES <? size f)%N; tauto.
Qed.


(** C10. When the newly selected file fails validation, [applyFile] of the
    Upload form resets the selected file to null and clears the preview
    (also when no file at all was picked), whereas [onFile] of the Compare
    page leaves the selected file and the preview as they were. *)
Theorem invalid_file_is_dropped
    (f : File) (url : string) (w : Upload.world) (cw : Compare.world)
    (Hinvalid : Upload.validateFile (Some f) <> "") :
  let w' := Upload.run (Upload.applyFile (Some f) url) w in
  let w0 := Upload.run (Upload.applyFile None url) w in
  let cw' := Compare.run (Compare.onFile (Some f) url) cw in
  (Upload.file (Upload.ui w') = None /\ Upload.preview (Upload.ui w') = "")
  /\ (Upload.file (Upload.ui w0) = None /\ Upload.preview (Upload.ui w0) = "")
  /\ (Compare.file (Compare.ui cw') = Compare.file (Compare.ui cw)
      /\ Compare.preview (Compare.ui cw') = Compare.preview (Compare.ui cw)).
Proof.
  intros w' w0 cw'. subst w' w0 cw'.
  unfold Upload.applyFile, Compare.onFile.
  destruct (validateFile_cases f) as [[Ht Hv]|[(Ht & Hs & Hv)|(Ht & Hs & Hv)]];
    [| |congruence]; rewrite Hv, Ht, ?Hs; simpl; tauto.
Qed.

Lemma invalid_file_is_dropped_witness :
  let f := {| type := "application/pdf"; size := 1024 |} in
  let old := {| type := "image/png"; size := 2048 |} in
  let cw := {| Compare.ui :=
                 {| Compare.file := Some old; Compare.preview := "blob:old";
                    Compare.loading := false; Compare.error := "";
                    Compare.result := None |};
               Compare.session := ∅ |} in
  let cw' := Compare.run (Compare.onFile (Some f) "blob:new") cw in
  Compare.file (Compare.ui cw') = Some old
  /\ Compare.preview (Compare.ui cw') = "blob:old".
Proof.
  intros f old cw cw'.
  refine (proj2 (proj2 (invalid_file_is_dropped f "blob:new"
    {| Upload.ui := Upload.init; Upload.session := ∅;
       Upload.requests := []; Upload.pending := 0 |} cw _))).
  vm_compute. discriminate.
Defined.

(** ** The health check *)

(** The state a [check] run leaves, by cases on what the two awaits of its
    [try] block give. *)
Lemma check_state (fetched : res Health.response) (s : Health.state) :
  Health.run (Health.check fetched) s =
  match Health.fetch_data fetched with
  | Ok data =>
      {| Health.online := true;
         Health.modelPresent := truthy (optprop "model_present" (Some data));
         Health.checking := false |}
  | Throw _ =>
      {| Health.online := false; Health.modelPresent := false;
         Health.checking := false |}
  end.
Proof.
  unfold Health.check. destruct (Health.fetch_data fetched); reflexivity.
Qed.

(** C4, as the claim has it, fails: a response with an OK status whose body
    is not JSON (an HTML page served for the route, say) makes [res.json()]
    throw, and the [catch] block sets [online] to false. *)
Lemma ok_status_does_not_imply_online :
  ~ (forall (r : Health.response) (s : Health.state),
        Health.ok r = true ->
        Health.online (Health.run (Health.check (Ok r)) s) = true).
Proof.
  intros H.
  specialize (H {| Health.ok := true;
                   Health.json := Throw "Unexpected token < in JSON" |}
                Health.init eq_refl).
  vm_compute in H. discriminate.
Qed.

(** C4, amended. A run of [check] sets both [online] and [modelPresent] to
    false when the fetch throws, when it returns a non-OK status, and when
    the body of an OK response fails to parse as JSON; when an OK response
    parses, [online] is set to true and [modelPresent] to the truthiness of
    the document's [model_present] field.  In each case [checking] ends
    false, and a missing model shows as the badge text, not as an error. *)
Theorem health_check_flags (fetched : res Health.response) (s : Health.state) :
  let s' := Health.run (Health.check fetched) s in
  Health.checking s' = false
  /\ match fetched with
     | Throw _ => Health.online s' = false /\ Health.modelPresent s' = false
     | Ok r =>
         if Health.ok r then
           match Health.json r with
           | Ok data =>
               Health.online s' = true
               /\ Health.modelPresent s'
                  = truthy (optprop "model_present" (Some data))
               /\ (Health.modelPresent s' = false ->
                   Health.badge_text s' = "API: Online • Model: Missing")
           | Throw _ =>
               Health.online s' = false /\ Health.modelPresent s' = false
           end
         else Health.online s' = false /\ Health.modelPresent s' = false
     end.
Proof.
  intros s'. subst s'. rewrite check_state.
  destruct fetched as [[okr [data|m]]|m]; simpl;
    try destruct okr; simpl; try tauto.
  repeat split. unfold Health.badge_text; simpl. intros ->. reflexivity.
Qed.

(** C8. In every state the hook reaches, [modelPresent] implies [online];
    and a [check] run that calls [setModelPresent(true)] has called
    [setOnline(true)] and never calls [setOnline(false)]. *)
Theorem model_present_implies_online
    (s : Health.state) (Hreach : Health.reachable s) :
  (Health.modelPresent s = true -> Health.online s = true)
  /\ (forall fetched,
        In (Health.SetModelPresent true) (Health.check fetched) ->
        In (Health.SetOnline true) (Health.check fetched)
        /\ ~ In (Health.SetOnline false) (Health.check fetched)
        /\ Health.online (Health.run (Health.check fetched) s) = true).
Proof.
  split.
  - induction Hreach as [|s fetched _ _]; [discriminate|].
    rewrite check_state. destruct (Health.fetch_data fetched); simpl;
      [reflexivity | discriminate].
  - intros fetched. rewrite check_state. unfold Health.check.
    destruct (Health.fetch_data fetched); simpl.
    + intros _. repeat split; [tauto|]. intros [H|[H|[H|[]]]]; discriminate.
    + intros [H|[H|[H|[]]]]; discriminate.
Qed.

Lemma model_present_implies_online_witness :
  let healthy := {| Health.ok := true;
                    Health.json := Ok (JObj [("status", JStr "ok");
                                             ("model_present", JBool true)]) |} in
  Health.online (Health.run (Health.check (Ok healthy)) Health.init) = true.
Proof.
  intros healthy.
  apply (proj1 (model_present_implies_online _
                  (Health.reach_check _ (Ok healthy) Health.reach_init))).
  reflexivity.
Defined.

(** ** The Upload form *)

Section UploadFacts.

Variable to_string : Js.json -> string.

(** What a [try] block that ends without a throw has done: one
    [setResult], then possibly [setFullCompare] and the session write. *)
Lemma try_block_ok (fetched : res Upload.response) (storage_ok : bool)
    (es : list Upload.effect) :
  Upload.try_block to_string fetched storage_ok = Ok es ->
  exists r data label confidence model_used,
    fetched = Ok r /\ Upload.ok r = true /\ Upload.read_body r = Ok data
    /\ prop "label" (Some data) = Ok label
    /\ prop "confidence" (Some data) = Ok confidence
    /\ prop "model_used" (Some data) = Ok model_used
    /\ let p := {| Upload.models := optprop "models" (Some data);
                   Upload.selection := optprop "selection" (Some data);
                   Upload.final_label := label;
                   Upload.final_confidence := confidence |} in
       es = Upload.SetResult
              (Some {| Upload.label := label; Upload.confidence := confidence;
                       Upload.model_used := model_used |}) ::
            if truthy (optprop "models" (Some data))
               && truthy (optprop "selection" (Some data))
            then Upload.SetFullCompare (Some p) ::
                 (if storage_ok
                  then [Upload.SessionSet "lastCompare" (Upload.stringify p)]
                  else [])
            else [].
Proof.
  unfold Upload.try_block, Upload.on_data.
  destruct fetched as [r|m]; cbn [bind]; [|discriminate].
  destruct (Upload.read_body r) as [data|m] eqn:Hbody; cbn [bind];
    [|discriminate].
  destruct (Upload.ok r) eqn:Hok; cbn [bind negb]; [|discriminate].
  destruct (prop "label" (Some data)) as [label|m] eqn:Hl; cbn [bind];
    [|discriminate].
  destruct (prop "confidence" (Some data)) as [confidence|m] eqn:Hc;
    cbn [bind]; [|discriminate].
  destruct (prop "model_used" (Some data)) as [model_used|m] eqn:Hm;
    cbn [bind]; [|discriminate].
  intros Heq. injection Heq as <-.
  exists r, data, label, confidence, model_used.
  repeat (split; [reflexivity || assumption|]). reflexivity.
Qed.

(** The effects of a successful [try] block touch neither [error],
    [loading], the requests nor the pending count. *)
Lemma try_block_ok_run (fetched : res Upload.response) (storage_ok : bool)
    (es : list Upload.effect) (w : Upload.world) :
  Upload.try_block to_string fetched storage_ok = Ok es ->
  let w' := Upload.run es w in
  Upload.error (Upload.ui w') = Upload.error (Upload.ui w)
  /\ Upload.loading (Upload.ui w') = Upload.loading (Upload.ui w)
  /\ Upload.file (Upload.ui w') = Upload.file (Upload.ui w)
  /\ Upload.result (Upload.ui w') <> None
  /\ Upload.pending w' = Upload.pending w
  /\ Upload.requests w' = Upload.requests w
  /\ Upload.fetches es = [].
Proof.
  intros H. apply try_block_ok in H.
  destruct H as (r & data & label & confidence & model_used & _ & _ & _ & _ & _ & _ & ->).
  destruct (truthy (optprop "models" (Some data))
            && truthy (optprop "selection" (Some data)));
    [destruct storage_ok|]; simpl; repeat split; discriminate.
Qed.

(** The state a settlement leaves. *)
Lemma settle_run (fetched : res Upload.response) (storage_ok : bool)
    (w : Upload.world) :
  let w' := Upload.run (Upload.onSubmit_settle to_string fetched storage_ok) w in
  Upload.loading (Upload.ui w') = false
  /\ Upload.pending w' = Upload.pending w
  /\ Upload.file (Upload.ui w') = Upload.file (Upload.ui w)
  /\ Upload.fetches (Upload.onSubmit_settle to_string fetched storage_ok) = []
  /\ if Upload.succeeded to_string fetched storage_ok
     then Upload.error (Upload.ui w') = Upload.error (Upload.ui w)
          /\ Upload.result (Upload.ui w') <> None
     else Upload.error (Upload.ui w') <> ""
          /\ Upload.result (Upload.ui w') = Upload.result (Upload.ui w).
Proof.
  unfold Upload.onSubmit_settle, Upload.succeeded, Upload.run.
  destruct (Upload.try_block to_string fetched storage_ok) as [es|m] eqn:Htry.
  - destruct (try_block_ok_run _ _ _ w Htry) as (He & Hl & Hf & Hr & Hp & _ & Hfe).
    unfold Upload.run in *. unfold Upload.fetches in *.
    rewrite fold_left_app, flat_map_app, Hfe. simpl. tauto.
  - simpl. repeat split. apply str_or_nonempty. discriminate.
Qed.

End UploadFacts.


(** The handlers other than [onSubmit] touch neither [loading] nor the
    requests. *)
Lemma applyFile_frame (f : option File) (url : string) (w : Upload.world) :
  let w' := Upload.run (Upload.applyFile f url) w in
  Upload.loading (Upload.ui w') = Upload.loading (Upload.ui w)
  /\ Upload.pending w' = Upload.pending w.
Proof.
  unfold Upload.applyFile.
  destruct (negb (Upload.validateFile f =? "")); [|destruct f]; simpl; tauto.
Qed.

Lemma onDrop_frame (files : list File) (url : string) (w : Upload.world) :
  let w' := Upload.run (Upload.onDrop files url) w in
  Upload.loading (Upload.ui w') = Upload.loading (Upload.ui w)
  /\ Upload.pending w' = Upload.pending w.
Proof.
  unfold Upload.onDrop. destruct files as [|f rest]; [simpl; tauto|].
  change (Upload.run (?e :: ?es) w) with (Upload.run es (Upload.perform w e)).
  destruct (applyFile_frame (Some f) url (Upload.perform w (Upload.SetDragActive false)))
    as [H1 H2].
  rewrite H1, H2. simpl; tauto.
Qed.

Lemma step_idle_or_waiting (to_string : Js.json -> string) (a a' : Upload.app) :
  Upload.step to_string a a' -> Upload.idle_or_waiting a -> Upload.idle_or_waiting a'.
Proof.
  unfold Upload.idle_or_waiting.
  intros Hstep Ha. destruct Hstep as [a Hen|a fetched ok Hp|a f url|a files url|a b|a|a fetched];
    cbn [Upload.w Upload.health].
  - unfold Upload.submit_disabled in Hen.
    apply orb_false_elim in Hen as [Hen _].
    apply orb_false_elim in Hen as [Hl _].
    destruct Ha as [[_ Hp]|[Hl' _]]; [|congruence].
    unfold Upload.onSubmit_request.
    destruct (Upload.file (Upload.ui (Upload.w a))); simpl;
      rewrite ?Hp; tauto.
  - destruct Ha as [[_ Hp']|[_ Hp']]; [congruence|].
    destruct (settle_run to_string fetched ok (Upload.w a))
      as (Hl & Hpend & _).
    cbn [Upload.ui Upload.pending]. rewrite Hl, Hpend, Hp'. simpl. tauto.
  - destruct (applyFile_frame f url (Upload.w a)) as [-> ->]. exact Ha.
  - destruct (onDrop_frame files url (Upload.w a)) as [-> ->]. exact Ha.
  - exact Ha.
  - exact Ha.
  - exact Ha.
Qed.

Lemma reachable_idle_or_waiting (to_string : Js.json -> string) (a : Upload.app) :
  Upload.reachable to_string a -> Upload.idle_or_waiting a.
Proof.
  induction 1 as [|a a' _ IH Hstep].
  - left. split; reflexivity.
  - exact (step_idle_or_waiting to_string a a' Hstep IH).
Qed.

(** While the request is pending the result is null, whatever the user
    does with the file in the meantime. *)
Lemma applyFile_result (f : option File) (url : string) (w : Upload.world) :
  Upload.result (Upload.ui (Upload.run (Upload.applyFile f url) w)) = None.
Proof.
  unfold Upload.applyFile.
  destruct (negb (Upload.validateFile f =? "")); [|destruct f]; reflexivity.
Qed.

Lemma reachable_loading_result (to_string : Js.json -> string) (a : Upload.app) :
  Upload.reachable to_string a ->
  Upload.loading (Upload.ui (Upload.w a)) = true ->
  Upload.result (Upload.ui (Upload.w a)) = None.
Proof.
  induction 1 as [|a a' _ IH Hstep]; [discriminate|].
  destruct Hstep as [a Hen|a fetched ok Hp|a f url|a files url|a b|a|a fetched];
    cbn [Upload.w Upload.health].
  - unfold Upload.onSubmit_request.
    destruct (Upload.file (Upload.ui (Upload.w a))); reflexivity.
  - destruct (settle_run to_string fetched ok (Upload.w a)) as (Hl & _).
    cbn [Upload.ui]. intros Hl'. rewrite Hl in Hl'. discriminate.
  - intros _. apply applyFile_result.
  - unfold Upload.onDrop. destruct files as [|f rest].
    + exact IH.
    + intros _.
      change (Upload.run (?e :: ?es) ?w0)
        with (Upload.run es (Upload.perform w0 e)).
      apply applyFile_result.
  - exact IH.
  - reflexivity.
  - exact IH.
Qed.

(** A failed request leaves the result null and the error set in every
    interleaving of the form's handlers. *)
Lemma failed_settlement_in_any_interleaving
    (to_string : Js.json -> string) (a : Upload.app)
    (fetched : res Upload.response) (storage_ok : bool) :
  Upload.reachable to_string a ->
  Upload.pending (Upload.w a) <> 0 ->
  Upload.succeeded to_string fetched storage_ok = false ->
  let w' := Upload.run (Upload.onSubmit_settle to_string fetched storage_ok)
                       (Upload.w a) in
  Upload.result (Upload.ui w') = None /\ Upload.error (Upload.ui w') <> "".
Proof.
  intros Hreach Hp Hfail.
  pose proof (reachable_idle_or_waiting to_string a Hreach) as [[_ H0]|[Hl _]];
    [congruence|].
  pose proof (reachable_loading_result to_string a Hreach Hl) as Hr.
  destruct (settle_run to_string fetched storage_ok (Upload.w a))
    as (_ & _ & _ & _ & Hs).
  rewrite Hfail in Hs. destruct Hs as [He Hres].
  cbv zeta. rewrite Hres. tauto.
Qed.

(** What [applyFile] leaves: a rejection (no file, no preview, the
    validation message) or an acceptance (the file, its blob URL, no
    error); the result is cleared either way and the rest is untouched. *)
Lemma applyFile_state (f : option File) (url : string) (w : Upload.world) :
  let w' := Upload.run (Upload.applyFile f url) w in
  Upload.requests w' = Upload.requests w
  /\ Upload.session w' = Upload.session w
  /\ Upload.fullCompare (Upload.ui w') = Upload.fullCompare (Upload.ui w)
  /\ Upload.result (Upload.ui w') = None
  /\ ((Upload.validateFile f <> ""
       /\ Upload.file (Upload.ui w') = None
       /\ Upload.preview (Upload.ui w') = ""
       /\ Upload.error (Upload.ui w') = Upload.validateFile f)
      \/ (exists g, f = Some g
          /\ Upload.validateFile f = ""
          /\ Upload.file (Upload.ui w') = Some g
          /\ Upload.preview (Upload.ui w') = url
          /\ Upload.error (Upload.ui w') = "")).
Proof.
  unfold Upload.applyFile.
  destruct (String.eqb_spec (Upload.validateFile f) "") as [He|Hne];
    cbn [negb].
  - destruct f as [g|]; [|discriminate He].
    cbv zeta. repeat split; try reflexivity.
    right. exists g. repeat split; try reflexivity. exact He.
  - cbv zeta. repeat split; try reflexivity.
    left. repeat split; try reflexivity. exact Hne.
Qed.





(** C5, as the claim has it, fails: with the API online and no file
    selected the submit button is enabled, and that submit issues no
    request at all. *)
Lemma submit_without_file_sends_nothing :
  ~ (forall (to_string : Js.json -> string) (a : Upload.app)
            (fetched : res Upload.response) (storage_ok : bool),
        Upload.reachable to_string a ->
        Upload.submit_disabled a = false ->
        length (Upload.fetches
                  (Upload.onSubmit to_string (Upload.ui (Upload.w a))
                                   fetched storage_ok)) = 1).
Proof.
  intros H.
  pose (healthy := {| Health.ok := true;
                      Health.json := Ok (JObj [("model_present", JBool true)]) |}).
  specialize (H (fun _ => "") _ (Throw "Failed to fetch") true
                (Upload.reach_step _ _ _ (Upload.reach_init _)
                   (Upload.step_health _ Upload.app_init (Ok healthy)))
                eq_refl).
  vm_compute in H. discriminate.
Qed.

(** The requests a submit and a settlement issue. *)
Lemma submit_fetches (to_string : Js.json -> string) (s : Upload.state)
    (fetched : res Upload.response) (storage_ok : bool) :
  Upload.fetches (Upload.onSubmit_settle to_string fetched storage_ok) = []
  /\ Upload.fetches (Upload.onSubmit to_string s fetched storage_ok)
     = match Upload.file s with
       | Some f => [("/api/detect", f)]
       | None => []
       end.
Proof.
  assert (Hsettle :
    Upload.fetches (Upload.onSubmit_settle to_string fetched storage_ok) = []).
  { exact (proj1 (proj2 (proj2 (proj2
             (settle_run to_string fetched storage_ok
                {| Upload.ui := s; Upload.session := ∅;
                   Upload.requests := []; Upload.pending := 0 |}))))). }
  split; [exact Hsettle|].
  unfold Upload.onSubmit, Upload.onSubmit_request.
  destruct (Upload.file s) as [f|]; [|reflexivity].
  unfold Upload.fetches in *. rewrite !flat_map_app, Hsettle. reflexivity.
Qed.

(** The form of the page is idle or waits for its one request, mounted or
    not. *)
Lemma page_idle_or_waiting (to_string : Js.json -> string) (p : Upload.page) :
  Upload.page_reachable to_string p ->
  Upload.idle_or_waiting (Upload.current p).
Proof.
  induction 1 as [|p p' _ IH Hstep].
  - left. split; reflexivity.
  - destruct Hstep as [p a' _ Hform|p _|p _|p fetched storage_ok _];
      cbn [Upload.current].
    + exact (step_idle_or_waiting to_string _ _ Hform IH).
    + left. split; reflexivity.
    + exact IH.
    + exact IH.
Qed.

(** Navigation lets requests pile up: for every [n] the page reaches a
    state with [n] upload requests in flight. *)
Lemma any_number_in_flight (to_string : Js.json -> string) (n : nat) :
  exists q, Upload.page_reachable to_string q /\ Upload.in_flight q = n.
Proof.
  assert (Hgen : exists stored issued,
            Upload.page_reachable to_string
              {| Upload.mounted := true;
                 Upload.current :=
                   {| Upload.w := {| Upload.ui := Upload.init;
                                     Upload.session := stored;
                                     Upload.requests := issued;
                                     Upload.pending := 0 |};
                      Upload.health := Health.init |};
                 Upload.orphans := n |}).
  { induction n as [|n (stored & issued & H0)].
    - exists ∅, []. apply Upload.page_reach_init.
    - pose (healthy := {| Health.ok := true;
                          Health.json := Ok (JObj [("model_present", JBool true)]) |}).
      pose (mango := {| type := "image/jpeg"; size := 204800 |}).
      match type of H0 with
      | Upload.page_reachable _ ?q =>
          pose proof (Upload.page_reach_step _ q _ H0
                        (Upload.page_form _ q _ eq_refl
                           (Upload.step_health _ (Upload.current q)
                              (Ok healthy)))) as H1
      end.
      cbn in H1.
      match type of H1 with
      | Upload.page_reachable _ ?q =>
          pose proof (Upload.page_reach_step _ q _ H1
                        (Upload.page_form _ q _ eq_refl
                           (Upload.step_applyFile _ (Upload.current q)
                              (Some mango) "blob:1"))) as H2
      end.
      cbn in H2.
      match type of H2 with
      | Upload.page_reachable _ ?q =>
          pose proof (Upload.page_reach_step _ q _ H2
                        (Upload.page_form _ q _ eq_refl
                           (Upload.step_submit _ (Upload.current q) eq_refl)))
            as H3
      end.
      cbn in H3.
      match type of H3 with
      | Upload.page_reachable _ ?q =>
          pose proof (Upload.page_reach_step _ q _ H3
                        (Upload.page_leave _ q eq_refl)) as H4
      end.
      cbn in H4.
      match type of H4 with
      | Upload.page_reachable _ ?q =>
          pose proof (Upload.page_reach_step _ q _ H4
                        (Upload.page_return _ q eq_refl)) as H5
      end.
      cbn in H5. rewrite Nat.add_1_r in H5.
      eexists _, _. exact H5. }
  destruct Hgen as (stored & issued & Hq).
  eexists. split; [exact Hq | reflexivity].
Qed.

(** C5, amended. A submit with a file selected issues exactly one request,
    to /api/detect with that file, and a submit without a file issues none;
    whatever the outcome, the settlement issues no further request (no
    retry).  In every state the page reaches, the mounted form has at most
    one request of its own pending, one is pending exactly while [loading]
    is true, and the submit button is disabled then.  A request is not
    aborted when navigation unmounts its form, and the form mounted
    afterwards starts enabled: across navigations any number of upload
    requests can be in flight. *)
Theorem one_request_per_mounted_form
    (to_string : Js.json -> string) (p : Upload.page)
    (Hreach : Upload.page_reachable to_string p) :
  let a := Upload.current p in
  Upload.pending (Upload.w a) <= 1
  /\ (Upload.pending (Upload.w a) = 1
      <-> Upload.loading (Upload.ui (Upload.w a)) = true)
  /\ (Upload.loading (Upload.ui (Upload.w a)) = true ->
      Upload.submit_disabled a = true)
  /\ (forall fetched storage_ok,
        Upload.fetches (Upload.onSubmit to_string (Upload.ui (Upload.w a))
                                        fetched storage_ok)
        = match Upload.file (Upload.ui (Upload.w a)) with
          | Some f => [("/api/detect", f)]
          | None => []
          end)
  /\ (forall fetched storage_ok,
        Upload.fetches (Upload.onSubmit_settle to_string fetched storage_ok)
        = [])
  /\ (forall n, exists q,
        Upload.page_reachable to_string q /\ Upload.in_flight q = n).
Proof.
  intros a. pose proof (page_idle_or_waiting to_string p Hreach) as Hinv.
  fold a in Hinv.
  split; [destruct Hinv as [[_ ->]|[_ ->]]; lia|].
  split.
  { split.
    - destruct Hinv as [[_ Hp]|[Hl _]];
        [rewrite Hp; discriminate | intros _; exact Hl].
    - destruct Hinv as [[Hl _]|[_ Hp]]; [congruence | intros _; exact Hp]. }
  split.
  { intros Hl. unfold Upload.submit_disabled. rewrite Hl. reflexivity. }
  split.
  { intros fetched storage_ok.
    exact (proj2 (submit_fetches to_string _ fetched storage_ok)). }
  split.
  { intros fetched storage_ok.
    exact (proj1 (submit_fetches to_string Upload.init fetched storage_ok)). }
  exact (any_number_in_flight to_string).
Qed.

Lemma one_request_per_mounted_form_witness :
  let healthy := {| Health.ok := true;
                    Health.json := Ok (JObj [("model_present", JBool true)]) |} in
  let mango := {| type := "image/jpeg"; size := 204800 |} in
  let a1 := {| Upload.w := Upload.w Upload.app_init;
               Upload.health :=
                 Health.run (Health.check (Ok healthy)) Health.init |} in
  let a2 := {| Upload.w := Upload.run (Upload.applyFile (Some mango) "blob:1")
                                      (Upload.w a1);
               Upload.health := Upload.health a1 |} in
  let a3 := {| Upload.w := Upload.run (Upload.onSubmit_request
                                         (Upload.ui (Upload.w a2)))
                                      (Upload.w a2);
               Upload.health := Upload.health a2 |} in
  Upload.pending (Upload.w a3) <= 1.
Proof.
  intros healthy mango a1 a2 a3.
  refine (proj1 (one_request_per_mounted_form (fun _ => "")
                   {| Upload.mounted := true; Upload.current := a3;
                      Upload.orphans := 0 |} _)).
  refine (Upload.page_reach_step _ _ _ _
            (Upload.page_form _ {| Upload.mounted := true; Upload.current := a2;
                                   Upload.orphans := 0 |} a3 eq_refl
               (Upload.step_submit _ a2 eq_refl))).
  refine (Upload.page_reach_step _ _ _ _
            (Upload.page_form _ {| Upload.mounted := true; Upload.current := a1;
                                   Upload.orphans := 0 |} a2 eq_refl
               (Upload.step_applyFile _ a1 (Some mango) "blob:1"))).
  exact (Upload.page_reach_step _ _ _ (Upload.page_reach_init _)
           (Upload.page_form _ Upload.page_init a1 eq_refl
              (Upload.step_health _ Upload.app_init (Ok healthy)))).
Defined.




(** ** The detection route *)

Lemma Qlt_bool_iff (x y : Q) : Backend.Qlt_bool x y = true <-> (x < y)%Q.
Proof.
  unfold Backend.Qlt_bool. rewrite negb_true_iff, <- not_true_iff_false.
  rewrite Qle_bool_iff. split; [apply Qnot_le_lt | apply Qlt_not_le].
Qed.

Lemma third_lt (s : Q) : (s / 3 < 40 <-> s < 120)%Q.
Proof.
  split; intros H.
  - apply (Qmult_lt_r _ _ 3) in H; [|reflexivity].
    unfold Qdiv in H. rewrite <- Qmult_assoc in H.
    assert (Hinv : (/ 3 * 3 == 1)%Q) by reflexivity.
    rewrite Hinv in H. lra.
  - apply Qlt_shift_div_r; [reflexivity|]. lra.
Qed.

(** One comparison: the winner is one of the two, no less accurate than
    either, and no less confident than one it ties with on accuracy. *)
Lemma better_spec (acc conf : Backend.model -> Q) (x y : Backend.model) :
  let b := Backend.better acc conf x y in
  (acc x <= acc b)%Q /\ (acc y <= acc b)%Q
  /\ ((acc x == acc b)%Q -> (conf x <= conf b)%Q)
  /\ ((acc y == acc b)%Q -> (conf y <= conf b)%Q).
Proof.
  unfold Backend.better.
  destruct (Backend.Qlt_bool (acc x) (acc y)) eqn:Hlt.
  - apply Qlt_bool_iff in Hlt. repeat split; intros; lra.
  - apply not_true_iff_false in Hlt. rewrite Qlt_bool_iff in Hlt.
    destruct (Qeq_bool (acc x) (acc y)) eqn:Heq; simpl.
    + apply Qeq_bool_iff in Heq.
      destruct (Backend.Qlt_bool (conf x) (conf y)) eqn:Hc.
      * apply Qlt_bool_iff in Hc. repeat split; intros; lra.
      * apply not_true_iff_false in Hc. rewrite Qlt_bool_iff in Hc.
        repeat split; intros; lra.
    + apply not_true_iff_false in Heq. rewrite Qeq_bool_iff in Heq.
      repeat split; intros; lra.
Qed.

(** C1. Among CNN, SVM and Random Forest the selected model has the highest
    validation accuracy, and among the models that tie with it on validation
    accuracy it has the highest confidence on the image. *)
Theorem best_model_is_selected (acc conf : Backend.model -> Q) :
  let m := Backend.select_model acc conf in
  (forall m', (acc m' <= acc m)%Q)
  /\ (forall m', (acc m' == acc m)%Q -> (conf m' <= conf m)%Q).
Proof.
  unfold Backend.select_model. cbn [fold_left].
  set (m1 := Backend.better acc conf Backend.CNN Backend.SVM).
  destruct (better_spec acc conf Backend.CNN Backend.SVM) as (Hc & Hs & Hcc & Hsc).
  destruct (better_spec acc conf m1 Backend.RandomForest) as (H1 & Hr & H1c & Hrc).
  fold m1 in Hc, Hs, Hcc, Hsc. cbv zeta in *.
  set (m := Backend.better acc conf m1 Backend.RandomForest) in *.
  split.
  - intros [| |]; lra.
  - intros [| |] He.
    + assert ((acc Backend.CNN == acc m1)%Q) by lra.
      assert ((acc m1 == acc m)%Q) by lra. intuition lra.
    + assert ((acc Backend.SVM == acc m1)%Q) by lra.
      assert ((acc m1 == acc m)%Q) by lra. intuition lra.
    + auto.
Qed.

(** C2. The detection rejects the image as not a mango exactly when the
    highest of the three confidences is below 50 percent (all three are) or
    their average is below 40 percent (their sum is below 120); otherwise it
    returns the selected model's label and confidence. *)
Theorem non_mango_rejected_iff
    (acc : Backend.model -> Q) (predict : Backend.model -> Backend.prediction) :
  let conf := fun m => Backend.confidence (predict m) in
  (Backend.detect acc predict = Backend.NotMango
   <-> (Backend.max_confidence conf < 50 \/ Backend.average_confidence conf < 40)%Q)
  /\ (Backend.detect acc predict = Backend.NotMango
      \/ exists m,
           m = Backend.select_model acc conf
           /\ Backend.detect acc predict
              = Backend.Detected (Backend.label (predict m))
                                 (Backend.confidence (predict m)) m)
  /\ ((Backend.max_confidence conf < 50)%Q
      <-> (conf Backend.CNN < 50 /\ conf Backend.SVM < 50
           /\ conf Backend.RandomForest < 50)%Q)
  /\ ((Backend.average_confidence conf < 40)%Q
      <-> (conf Backend.CNN + conf Backend.SVM + conf Backend.RandomForest < 120)%Q).
Proof.
  intros conf. unfold Backend.detect, Backend.validate_mango_image.
  fold conf.
  destruct (Backend.Qlt_bool (Backend.max_confidence conf) 50) eqn:Hmax;
    [|destruct (Backend.Qlt_bool (Backend.average_confidence conf) 40) eqn:Havg];
    cbn [orb negb].
  - apply Qlt_bool_iff in Hmax. split; [tauto|]. split; [tauto|].
    split.
    + unfold Backend.max_confidence. rewrite !Q.max_lub_lt_iff. tauto.
    + unfold Backend.average_confidence. apply third_lt.
  - apply Qlt_bool_iff in Havg. split; [tauto|]. split; [tauto|].
    split.
    + unfold Backend.max_confidence. rewrite !Q.max_lub_lt_iff. tauto.
    + unfold Backend.average_confidence. apply third_lt.
  - apply not_true_iff_false in Hmax, Havg. rewrite Qlt_bool_iff in Hmax, Havg.
    split; [split; [discriminate | tauto]|].
    split; [right; eexists; split; reflexivity|].
    split.
    + unfold Backend.max_confidence. rewrite !Q.max_lub_lt_iff. tauto.
    + unfold Backend.average_confidence. apply third_lt.
Qed.

(** ** The validation accuracies on screen *)


(** The double nearest to 0.57 is plotted as 56.99999999999999, as the
    product of doubles gives, not as 57. *)
Lemma percent_is_a_product_of_doubles :
  Chart.percent (Some 0.57%float) = 56.999999999999993%float
  /\ PrimFloat.eqb (Chart.percent (Some 0.57%float)) 57 = false.
Proof. split; reflexivity. Qed.



(** * Further properties of the client *)

(** ** The Upload form: what is selected and what is sent *)

(** A settlement touches neither the selection nor the requests. *)
Lemma settle_frame (to_string : Js.json -> string)
    (fetched : res Upload.response) (storage_ok : bool) (w : Upload.world) :
  let w' := Upload.run (Upload.onSubmit_settle to_string fetched storage_ok) w in
  Upload.file (Upload.ui w') = Upload.file (Upload.ui w)
  /\ Upload.preview (Upload.ui w') = Upload.preview (Upload.ui w)
  /\ Upload.requests w' = Upload.requests w.
Proof.
  unfold Upload.onSubmit_settle.
  destruct (Upload.try_block to_string fetched storage_ok) as [es|m] eqn:Htry;
    [|simpl; tauto].
  apply try_block_ok in Htry.
  destruct Htry as (r & data & label & confidence & model_used
                    & _ & _ & _ & _ & _ & _ & ->).
  destruct (truthy (optprop "models" (Some data))
            && truthy (optprop "selection" (Some data)));
    [destruct storage_ok|]; simpl; tauto.
Qed.

Lemma validateFile_ok_iff (f : File) :
  Upload.validateFile (Some f) = "" <->
  (type f = "image/jpeg" \/ type f = "image/png" \/ type f = "image/webp")
  /\ (size f <= 5 * 1024 * 1024)%N.
Proof.
  rewrite <- accepted_type_iff.
  destruct (validateFile_cases f) as [[Ht Hv]|[(Ht & Hs & Hv)|(Ht & Hs & Hv)]];
    rewrite Hv, Ht.
  - split; [discriminate | intros [? _]; discriminate].
  - apply too_large_iff in Hs. split; [discriminate | intros [_ ?]; lia].
  - apply N.ltb_ge in Hs. unfold MAX_BYTES in Hs. split; [|reflexivity].
    intros _. split; [reflexivity | exact Hs].
Qed.

(** The selection the form keeps, and the requests it has issued. *)
Lemma reachable_selection (to_string : Js.json -> string) (a : Upload.app) :
  Upload.reachable to_string a ->
  (forall f, Upload.file (Upload.ui (Upload.w a)) = Some f ->
             Upload.validateFile (Some f) = "")
  /\ (Upload.file (Upload.ui (Upload.w a)) = None ->
      Upload.preview (Upload.ui (Upload.w a)) = "")
  /\ (forall u f, In (u, f) (Upload.requests (Upload.w a)) ->
                  u = "/api/detect" /\ Upload.validateFile (Some f) = "").
Proof.
  induction 1 as [|a a' _ (IHf & IHp & IHr) Hstep].
  - split; [intros f Hf; discriminate Hf|].
    split; [reflexivity | intros u f []].
  - destruct Hstep as [a Hen|a fetched ok Hp|a f url|a files url|a b|a|a fetched];
      cbn [Upload.w Upload.health].
    + unfold Upload.onSubmit_request.
      destruct (Upload.file (Upload.ui (Upload.w a))) as [g|] eqn:Hg;
        simpl; rewrite ?Hg.
      * split; [exact IHf|]. split; [exact IHp|].
        intros u f [Heq|Hin]; [|apply (IHr u f Hin)].
        injection Heq as <- <-. split; [reflexivity | apply IHf; reflexivity].
      * split; [exact IHf|]. split; [exact IHp | exact IHr].
    + destruct (settle_frame to_string fetched ok (Upload.w a))
        as (Hf & Hpv & Hrq).
      cbn [Upload.ui Upload.requests]. rewrite Hf, Hpv, Hrq.
      split; [exact IHf|]. split; [exact IHp | exact IHr].
    + destruct (applyFile_state f url (Upload.w a))
        as (Hrq & _ & _ & _ & [(_ & Hf & Hpv & _)|(g & -> & Hv & Hf & _)]);
        rewrite Hrq, Hf.
      * split; [intros f' Hf'; discriminate Hf'|].
        split; [intros _; exact Hpv | exact IHr].
      * split; [intros f' Heq; injection Heq as <-; exact Hv|].
        split; [intros Hn; discriminate Hn | exact IHr].
    + unfold Upload.onDrop. destruct files as [|f rest].
      * split; [exact IHf|]. split; [exact IHp | exact IHr].
      * change (Upload.run (?e :: ?es) ?w0)
          with (Upload.run es (Upload.perform w0 e)).
        destruct (applyFile_state (Some f) url
                    (Upload.perform (Upload.w a) (Upload.SetDragActive false)))
          as (Hrq & _ & _ & _ & [(_ & Hf & Hpv & _)|(g & Hg & Hv & Hf & _)]);
          rewrite Hrq, Hf.
        -- split; [intros f' Hf'; discriminate Hf'|].
           split; [intros _; exact Hpv | exact IHr].
        -- injection Hg as <-.
           split; [intros f' Heq; injection Heq as <-; exact Hv|].
           split; [intros Hn; discriminate Hn | exact IHr].
    + split; [exact IHf|]. split; [exact IHp | exact IHr].
    + split; [intros f' Hf'; discriminate Hf'|].
      split; [reflexivity | exact IHr].
    + split; [exact IHf|]. split; [exact IHp | exact IHr].
Qed.

(** X1. Whatever the user does, the file the form holds has passed the
    client checks, and so has the image of every request issued; all of
    them went to /api/detect. *)
Theorem only_validated_files_are_sent
    (to_string : Js.json -> string) (a : Upload.app)
    (Hreach : Upload.reachable to_string a) :
  (forall f, Upload.file (Upload.ui (Upload.w a)) = Some f ->
     (type f = "image/jpeg" \/ type f = "image/png" \/ type f = "image/webp")
     /\ (size f <= 5 * 1024 * 1024)%N)
  /\ (forall u f, In (u, f) (Upload.requests (Upload.w a)) ->
        u = "/api/detect"
        /\ (type f = "image/jpeg" \/ type f = "image/png"
            \/ type f = "image/webp")
        /\ (size f <= 5 * 1024 * 1024)%N).
Proof.
  destruct (reachable_selection to_string a Hreach) as (Hf & _ & Hr).
  split.
  - intros f Hsel. apply validateFile_ok_iff, Hf, Hsel.
  - intros u f Hin. destruct (Hr u f Hin) as [-> Hv].
    split; [reflexivity | apply validateFile_ok_iff, Hv].
Qed.

Lemma only_validated_files_are_sent_witness :
  let healthy := {| Health.ok := true;
                    Health.json := Ok (JObj [("model_present", JBool true)]) |} in
  let mango := {| type := "image/webp"; size := 4096 |} in
  let a1 := {| Upload.w := Upload.w Upload.app_init;
               Upload.health :=
                 Health.run (Health.check (Ok healthy)) Health.init |} in
  let a2 := {| Upload.w := Upload.run (Upload.applyFile (Some mango) "blob:7")
                                      (Upload.w a1);
               Upload.health := Upload.health a1 |} in
  let a3 := {| Upload.w := Upload.run (Upload.onSubmit_request
                                         (Upload.ui (Upload.w a2)))
                                      (Upload.w a2);
               Upload.health := Upload.health a2 |} in
  Upload.requests (Upload.w a3) = [("/api/detect", mango)]
  /\ (size mango <= 5 * 1024 * 1024)%N.
Proof.
  intros healthy mango a1 a2 a3. split; [reflexivity|].
  refine (proj2 (proj2 (proj2 (only_validated_files_are_sent (fun _ => "") a3 _)
                          "/api/detect" mango _))).
  - refine (Upload.reach_step _ a2 a3 _ (Upload.step_submit _ a2 eq_refl)).
    refine (Upload.reach_step _ a1 a2 _
              (Upload.step_applyFile _ a1 (Some mango) "blob:7")).
    exact (Upload.reach_step _ Upload.app_init a1 (Upload.reach_init _)
             (Upload.step_health _ Upload.app_init (Ok healthy))).
  - left. reflexivity.
Defined.

(** X2. The form never shows a preview without a selected file: in every
    state it reaches, a null file comes with an empty preview. *)
Theorem no_preview_without_file
    (to_string : Js.json -> string) (a : Upload.app)
    (Hreach : Upload.reachable to_string a)
    (Hnone : Upload.file (Upload.ui (Upload.w a)) = None) :
  Upload.preview (Upload.ui (Upload.w a)) = "".
Proof.
  exact (proj1 (proj2 (reachable_selection to_string a Hreach)) Hnone).
Qed.

Lemma no_preview_without_file_witness :
  let mango := {| type := "image/png"; size := 4096 |} in
  let pdf := {| type := "application/pdf"; size := 4096 |} in
  let a1 := {| Upload.w := Upload.run (Upload.applyFile (Some mango) "blob:1")
                                      (Upload.w Upload.app_init);
               Upload.health := Health.init |} in
  let a2 := {| Upload.w := Upload.run (Upload.applyFile (Some pdf) "blob:2")
                                      (Upload.w a1);
               Upload.health := Health.init |} in
  Upload.preview (Upload.ui (Upload.w a2)) = "".
Proof.
  intros mango pdf a1 a2.
  refine (no_preview_without_file (fun _ => "") a2 _ eq_refl).
  refine (Upload.reach_step _ a1 a2 _
            (Upload.step_applyFile _ a1 (Some pdf) "blob:2")).
  exact (Upload.reach_step _ Upload.app_init a1 (Upload.reach_init _)
           (Upload.step_applyFile _ Upload.app_init (Some mango) "blob:1")).
Defined.

(** X3. An empty file list is handled differently by the two entry points
    of the Upload form: a drop without files only ends the drag highlight
    and keeps the selection, the result and the error, whereas a change of
    the file input that leaves no file drops the selection and the preview
    and reports that no file is selected.  With files, both apply the first
    one and ignore the others. *)
Theorem empty_drop_keeps_selection
    (url : string) (w : Upload.world) (f : File) (others : list File) :
  let dropped := Upload.run (Upload.onDrop [] url) w in
  let changed := Upload.run (Upload.onFileChange [] url) w in
  (Upload.file (Upload.ui dropped) = Upload.file (Upload.ui w)
   /\ Upload.preview (Upload.ui dropped) = Upload.preview (Upload.ui w)
   /\ Upload.result (Upload.ui dropped) = Upload.result (Upload.ui w)
   /\ Upload.error (Upload.ui dropped) = Upload.error (Upload.ui w)
   /\ Upload.dragActive (Upload.ui dropped) = false)
  /\ (Upload.file (Upload.ui changed) = None
      /\ Upload.preview (Upload.ui changed) = ""
      /\ Upload.result (Upload.ui changed) = None
      /\ Upload.error (Upload.ui changed) = "No file selected"
      /\ Upload.dragActive (Upload.ui changed) = Upload.dragActive (Upload.ui w))
  /\ Upload.run (Upload.onFileChange (f :: others) url) w
     = Upload.run (Upload.applyFile (Some f) url) w
  /\ Upload.run (Upload.onDrop (f :: others) url) w
     = Upload.run (Upload.applyFile (Some f) url)
                  (Upload.run Upload.onDragLeave w).
Proof.
  cbv zeta. split; [|split; [|split]]; try reflexivity.
  - simpl. tauto.
  - simpl. tauto.
Qed.

(** X4. The submit button reads Detect Pesticide exactly when it is
    enabled; when disabled, its label names the first reason that holds
    among a pending detection, a pending health check and an API that is
    offline. *)
Theorem submit_label_matches_state (a : Upload.app) :
  (Upload.submit_label a = "Detect Pesticide"
   <-> Upload.submit_disabled a = false)
  /\ (Upload.loading (Upload.ui (Upload.w a)) = true ->
      Upload.submit_label a = "Detecting...")
  /\ (Upload.loading (Upload.ui (Upload.w a)) = false ->
      Health.checking (Upload.health a) = true ->
      Upload.submit_label a = "Checking API…")
  /\ (Upload.loading (Upload.ui (Upload.w a)) = false ->
      Health.checking (Upload.health a) = false ->
      Health.online (Upload.health a) = false ->
      Upload.submit_label a = "API offline").
Proof.
  unfold Upload.submit_label, Upload.submit_disabled.
  destruct (Upload.loading (Upload.ui (Upload.w a)));
    destruct (Health.checking (Upload.health a));
    destruct (Health.online (Upload.health a)); simpl;
    (split; [split; intros H; (reflexivity || discriminate H)|]);
    (split; [intros H; (reflexivity || discriminate H)|]);
    (split; intros H1 H2; try intros H3;
     (reflexivity || discriminate)).
Qed.

(** X5. When the card about the missing model is shown, no error card is
    shown, the submit button is nevertheless enabled and reads Detect
    Pesticide, and a badge on the same health state reads Model: Missing.
    The card is never shown together with the error card. *)
Theorem missing_model_card_leaves_submit_enabled
    (a : Upload.app) (Hshown : Upload.model_missing_shown a = true) :
  Upload.error_shown (Upload.ui (Upload.w a)) = false
  /\ Upload.submit_disabled a = false
  /\ Upload.submit_label a = "Detect Pesticide"
  /\ Health.badge_text (Upload.health a) = "API: Online • Model: Missing".
Proof.
  unfold Upload.model_missing_shown in Hshown.
  repeat (apply andb_prop in Hshown as [Hshown ?]).
  unfold Upload.error_shown, Upload.submit_disabled, Upload.submit_label,
    Health.badge_text.
  rewrite Hshown.
  destruct (Upload.loading (Upload.ui (Upload.w a))); [discriminate|].
  destruct (Health.checking (Upload.health a)); [discriminate|].
  destruct (Health.online (Upload.health a)); [|discriminate].
  destruct (Health.modelPresent (Upload.health a)); [discriminate|].
  repeat split.
Qed.

Lemma missing_model_card_leaves_submit_enabled_witness :
  let no_model := {| Health.ok := true;
                     Health.json := Ok (JObj [("status", JStr "ok");
                                              ("model_present", JBool false)]) |} in
  let a := {| Upload.w := Upload.w Upload.app_init;
              Upload.health :=
                Health.run (Health.check (Ok no_model)) Health.init |} in
  Upload.submit_disabled a = false.
Proof.
  intros no_model a.
  exact (proj1 (proj2 (missing_model_card_leaves_submit_enabled a eq_refl))).
Defined.

(** X6. After [reset] the form holds no file, preview, result or error, but
    keeps the last comparison payload, the session storage and the loading
    flag; a submit that follows issues no request and only asks for an
    image. *)
Theorem reset_then_submit_asks_for_image
    (to_string : Js.json -> string) (w : Upload.world)
    (fetched : res Upload.response) (storage_ok : bool) :
  let w1 := Upload.run Upload.reset w in
  let es := Upload.onSubmit to_string (Upload.ui w1) fetched storage_ok in
  let w2 := Upload.run es w1 in
  (Upload.file (Upload.ui w1) = None /\ Upload.preview (Upload.ui w1) = ""
   /\ Upload.result (Upload.ui w1) = None /\ Upload.error (Upload.ui w1) = "")
  /\ (Upload.fullCompare (Upload.ui w1) = Upload.fullCompare (Upload.ui w)
      /\ Upload.loading (Upload.ui w1) = Upload.loading (Upload.ui w)
      /\ Upload.session w1 = Upload.session w
      /\ Upload.requests w1 = Upload.requests w)
  /\ Upload.fetches es = []
  /\ Upload.requests w2 = Upload.requests w
  /\ Upload.error (Upload.ui w2) = "Please select an image first."
  /\ Upload.result (Upload.ui w2) = None
  /\ Upload.loading (Upload.ui w2) = Upload.loading (Upload.ui w).
Proof.
  cbv zeta. unfold Upload.onSubmit, Upload.onSubmit_request.
  simpl. repeat split.
Qed.

(** ** The health hook over time *)

(** X7. The hook is in its checking phase in its initial state only: once
    a check has run the badge is green with the API online or red and
    reads API: Offline, and never grey again. *)
Theorem checking_only_before_first_check
    (s : Health.state) (Hreach : Health.reachable s) :
  s = Health.init
  \/ (Health.checking s = false
      /\ ((Health.online s = true
           /\ Health.badge_color s = "bg-green-500")
          \/ (Health.online s = false
              /\ Health.modelPresent s = false
              /\ Health.badge_color s = "bg-red-500"
              /\ Health.badge_text s = "API: Offline"))).
Proof.
  destruct Hreach as [|s fetched _]; [left; reflexivity|].
  right. rewrite check_state.
  destruct (Health.fetch_data fetched); simpl.
  - split; [reflexivity|]. left. split; reflexivity.
  - split; [reflexivity|]. right. repeat split.
Qed.

Lemma checking_only_before_first_check_witness :
  let down := Health.run (Health.check (Throw "Failed to fetch")) Health.init in
  down = Health.init
  \/ (Health.checking down = false
      /\ ((Health.online down = true
           /\ Health.badge_color down = "bg-green-500")
          \/ (Health.online down = false
              /\ Health.modelPresent down = false
              /\ Health.badge_color down = "bg-red-500"
              /\ Health.badge_text down = "API: Offline"))).
Proof.
  intros down.
  exact (checking_only_before_first_check down
           (Health.reach_check _ (Throw "Failed to fetch") Health.reach_init)).
Defined.

(** X8. The flags keep no history: the state a check leaves depends on the
    outcome of that check alone, so a later check overrides an earlier one
    whatever it found (a backend that comes back is online at the next
    check, one that goes away is offline at the next check). *)
Theorem health_state_is_the_last_check
    (first last : res Health.response) (s s' : Health.state) :
  Health.run (Health.check last) s = Health.run (Health.check last) s'
  /\ Health.run (Health.check last) (Health.run (Health.check first) s)
     = Health.run (Health.check last) s
  /\ Health.run (Health.check first ++ Health.check last) s
     = Health.run (Health.check last) s.
Proof.
  split; [rewrite !check_state; reflexivity|].
  split; [rewrite !check_state; reflexivity|].
  unfold Health.run at 1. rewrite fold_left_app.
  change (Health.run (Health.check last) (Health.run (Health.check first) s)
          = Health.run (Health.check last) s).
  rewrite !check_state. reflexivity.
Qed.

(** ** The Compare page *)

(** A [try] block of the Compare page that ends without a throw has set
    the result to the decoded data of an OK response, and nothing else. *)
Lemma compare_try_block_ok (to_string : Js.json -> string)
    (fetched : res Upload.response) (es : list Compare.effect) :
  Compare.try_block to_string fetched = Ok es ->
  exists r data,
    fetched = Ok r /\ Upload.ok r = true /\ Compare.read_data r = Ok data
    /\ es = [Compare.SetResult (Some data)].
Proof.
  unfold Compare.try_block.
  destruct fetched as [r|m]; cbn [bind]; [|discriminate].
  destruct (Compare.read_data r) as [data|m] eqn:Hd; cbn [bind];
    [|discriminate].
  destruct (Upload.ok r) eqn:Hok; cbn [negb]; [|discriminate].
  intros Heq. injection Heq as <-. exists r, data.
  split; [reflexivity|]. split; [exact Hok|]. split; [exact Hd | reflexivity].
Qed.

(** X9. A submit on the Compare page never writes the session storage and
    never changes the selected file or its preview.  Without a file it
    issues no request, sets the error that asks for an image and leaves the
    result and the loading flag as they were.  With a file it sets loading,
    clears the error and the result and issues one request to
    /api/compare-image with that file.  Whatever state the settlement
    finds (the file input stays usable during the request), it clears
    loading and either sets the result to the decoded data of an OK
    response, leaving the error as found, or sets a non-empty error,
    leaving the result as found; when no other handler runs in between,
    that is an empty error with the data, or a null result with the
    error. *)
Theorem compare_submit_outcome
    (to_string : Js.json -> string) (cw cw1 : Compare.world)
    (fetched : res Upload.response) :
  let s := Compare.ui cw in
  let requested := Compare.run (fst (Compare.onSubmit_request s)) cw in
  let settled := Compare.run (Compare.onSubmit_settle to_string fetched) cw1 in
  let ended := Compare.run (Compare.onSubmit to_string s fetched) cw in
  (Compare.session requested = Compare.session cw
   /\ Compare.file (Compare.ui requested) = Compare.file s
   /\ Compare.preview (Compare.ui requested) = Compare.preview s
   /\ match Compare.file s with
      | None =>
          snd (Compare.onSubmit_request s) = None
          /\ ended = requested
          /\ Compare.result (Compare.ui requested) = Compare.result s
          /\ Compare.loading (Compare.ui requested) = Compare.loading s
          /\ Compare.error (Compare.ui requested) = "Please choose an image."
      | Some f =>
          snd (Compare.onSubmit_request s) = Some ("/api/compare-image", f)
          /\ Compare.loading (Compare.ui requested) = true
          /\ Compare.error (Compare.ui requested) = ""
          /\ Compare.result (Compare.ui requested) = None
      end)
  /\ (Compare.session settled = Compare.session cw1
      /\ Compare.file (Compare.ui settled) = Compare.file (Compare.ui cw1)
      /\ Compare.preview (Compare.ui settled) = Compare.preview (Compare.ui cw1)
      /\ Compare.loading (Compare.ui settled) = false
      /\ match Compare.try_block to_string fetched with
         | Ok _ =>
             Compare.error (Compare.ui settled) = Compare.error (Compare.ui cw1)
             /\ exists r data,
                  fetched = Ok r /\ Upload.ok r = true
                  /\ Compare.read_data r = Ok data
                  /\ Compare.result (Compare.ui settled) = Some data
         | Throw _ =>
             Compare.result (Compare.ui settled)
             = Compare.result (Compare.ui cw1)
             /\ Compare.error (Compare.ui settled) <> ""
         end)
  /\ match Compare.file s with
     | None => True
     | Some _ =>
         ended = Compare.run (Compare.onSubmit_settle to_string fetched) requested
         /\ match Compare.try_block to_string fetched with
            | Ok _ => Compare.error (Compare.ui ended) = ""
                      /\ Compare.result (Compare.ui ended) <> None
            | Throw _ => Compare.result (Compare.ui ended) = None
                         /\ Compare.error (Compare.ui ended) <> ""
            end
     end.
Proof.
  assert (Hsettle : forall cw0 : Compare.world,
    let settled := Compare.run (Compare.onSubmit_settle to_string fetched) cw0 in
    Compare.session settled = Compare.session cw0
    /\ Compare.file (Compare.ui settled) = Compare.file (Compare.ui cw0)
    /\ Compare.preview (Compare.ui settled) = Compare.preview (Compare.ui cw0)
    /\ Compare.loading (Compare.ui settled) = false
    /\ match Compare.try_block to_string fetched with
       | Ok _ =>
           Compare.error (Compare.ui settled) = Compare.error (Compare.ui cw0)
           /\ exists r data,
                fetched = Ok r /\ Upload.ok r = true
                /\ Compare.read_data r = Ok data
                /\ Compare.result (Compare.ui settled) = Some data
       | Throw _ =>
           Compare.result (Compare.ui settled) = Compare.result (Compare.ui cw0)
           /\ Compare.error (Compare.ui settled) <> ""
       end).
  { intros cw0. cbv zeta. unfold Compare.onSubmit_settle.
    destruct (Compare.try_block to_string fetched) as [es|m] eqn:Htry.
    - apply compare_try_block_ok in Htry.
      destruct Htry as (r & data & -> & Hok & Hd & ->).
      simpl. do 5 (split; [reflexivity|]).
      exists r, data. split; [reflexivity|]. split; [exact Hok|].
      split; [exact Hd | reflexivity].
    - simpl. do 5 (split; [reflexivity|]).
      apply str_or_nonempty. discriminate. }
  cbv zeta. split; [|split; [apply Hsettle|]].
  - unfold Compare.onSubmit, Compare.onSubmit_request.
    destruct (Compare.file (Compare.ui cw)) as [f|] eqn:Hf; cbn [fst snd].
    + simpl. rewrite Hf. repeat split.
    + simpl. rewrite ?Hf. repeat split.
  - unfold Compare.onSubmit, Compare.onSubmit_request.
    destruct (Compare.file (Compare.ui cw)) as [f|] eqn:Hf; cbn [fst snd];
      [|exact I].
    set (pre := [Compare.SetLoading true; Compare.SetError "";
                 Compare.SetResult None]).
    assert (Hend : Compare.run (pre ++ Compare.onSubmit_settle to_string fetched) cw
                   = Compare.run (Compare.onSubmit_settle to_string fetched)
                                 (Compare.run pre cw)).
    { unfold Compare.run. apply fold_left_app. }
    rewrite Hend. split; [reflexivity|].
    destruct (Hsettle (Compare.run pre cw)) as (_ & _ & _ & _ & Hs).
    destruct (Compare.try_block to_string fetched).
    + destruct Hs as [He (r & data & _ & _ & _ & Hr)].
      split; [rewrite He; reflexivity | rewrite Hr; discriminate].
    + destruct Hs as [Hr He]. split; [rewrite Hr; reflexivity | exact He].
Qed.

(** What [slice(0, n)] keeps. *)
Lemma slice_units_short (s : string) :
  forall units pending,
    String.length s <= units + pending -> slice_units units pending s = s.
Proof.
  induction s as [|b rest IH]; [reflexivity|].
  intros units pending Hlen. cbn [String.length] in Hlen.
  cbn [slice_units]. destruct pending as [|pending].
  - destruct units as [|units]; [lia|].
    destruct (utf8_width b) as [|[|[|[|[|k]]]]]; cbn [Nat.pred];
      try (rewrite IH; [reflexivity | lia]).
    destruct units as [|units]; [|rewrite IH; [reflexivity | lia]].
    destruct rest as [|b1 rest]; [reflexivity|].
    cbn [String.length] in Hlen. lia.
  - rewrite IH; [reflexivity | lia].
Qed.

Lemma slice_units_ascii (s : string) :
  forall units, ascii_only s = true ->
                slice_units units 0 s = String.substring 0 units s.
Proof.
  induction s as [|b rest IH]; intros units Hascii.
  - destruct units; reflexivity.
  - cbn [ascii_only] in Hascii. apply andb_prop in Hascii as [Hb Hrest].
    destruct units as [|units]; [reflexivity|].
    cbn [slice_units String.substring].
    assert (Hw : utf8_width b = 1).
    { unfold utf8_width. apply N.ltb_lt in Hb.
      destruct (N.ltb_spec (N_of_ascii b) 192) as [_|Hge]; [reflexivity | lia]. }
    rewrite Hw. cbn [Nat.pred]. rewrite (IH units Hrest). reflexivity.
Qed.

(** X10. When an OK response that is not JSON settles, in whatever state
    the handlers run during the request have left the page, the Upload form
    sets a non-empty error, the first 200 UTF-16 code units of the body
    (the whole body when it has at most 200 bytes, a fixed message when it
    is empty; on an ASCII body, its first 200 characters), clears loading
    and leaves the result and the session storage as found; the Compare
    page sets the result to an object holding the body text under [error],
    whose chart has three figures at 0, clears loading and leaves the error
    as found. *)
Theorem non_json_ok_response_differs
    (to_string : Js.json -> string)
    (w1 : Upload.world) (cw1 : Compare.world) (storage_ok : bool)
    (r : Upload.response) (t : string)
    (Hok : Upload.ok r = true)
    (Htype : str_includes "application/json"
                          (default "" (Upload.content_type r)) = false)
    (Htext : Upload.text r = Ok t) :
  let w' := Upload.run (Upload.onSubmit_settle to_string (Ok r) storage_ok) w1 in
  let cw' := Compare.run (Compare.onSubmit_settle to_string (Ok r)) cw1 in
  (Upload.error (Upload.ui w')
   = str_or (slice_units 200 0 t) "Non-JSON response from server"
   /\ Upload.error (Upload.ui w') <> ""
   /\ (String.length t <= 200 -> t <> "" -> Upload.error (Upload.ui w') = t)
   /\ (t = "" -> Upload.error (Upload.ui w') = "Non-JSON response from server")
   /\ (ascii_only t = true ->
       Upload.error (Upload.ui w')
       = str_or (String.substring 0 200 t) "Non-JSON response from server")
   /\ Upload.result (Upload.ui w') = Upload.result (Upload.ui w1)
   /\ Upload.loading (Upload.ui w') = false
   /\ Upload.session w' = Upload.session w1)
  /\ (Compare.result (Compare.ui cw') = Some (JObj [("error", JStr t)])
      /\ Compare.error (Compare.ui cw') = Compare.error (Compare.ui cw1)
      /\ Compare.loading (Compare.ui cw') = false
      /\ Compare.chart (Compare.result (Compare.ui cw'))
         = Some [Some (JNum 0); Some (JNum 0); Some (JNum 0)]).
Proof.
  assert (Hup : Upload.try_block to_string (Ok r) storage_ok
                = Throw (str_or (slice_units 200 0 t)
                                "Non-JSON response from server")).
  { unfold Upload.try_block. cbn [bind]. unfold Upload.read_body.
    rewrite Htype, Htext. reflexivity. }
  assert (Hcmp : Compare.try_block to_string (Ok r)
                 = Ok [Compare.SetResult (Some (JObj [("error", JStr t)]))]).
  { unfold Compare.try_block. cbn [bind]. unfold Compare.read_data.
    rewrite Htype, Htext. cbn [bind]. rewrite Hok. reflexivity. }
  set (m := str_or (slice_units 200 0 t) "Non-JSON response from server") in *.
  assert (Hne : m <> "") by (apply str_or_nonempty; discriminate).
  assert (Hm : str_or m "Request failed" = m).
  { unfold str_or at 1. destruct (String.eqb_spec m "") as [He|];
      [contradiction | reflexivity]. }
  assert (Herr : Upload.error
                   (Upload.ui (Upload.run
                      (Upload.onSubmit_settle to_string (Ok r) storage_ok) w1))
                 = m).
  { unfold Upload.onSubmit_settle. rewrite Hup. simpl. exact Hm. }
  cbv zeta. split.
  - rewrite Herr. split; [reflexivity|]. split; [exact Hne|].
    split; [|split; [|split]].
    + intros Hlen Ht. unfold m. rewrite slice_units_short by lia.
      unfold str_or. apply String.eqb_neq in Ht. rewrite Ht. reflexivity.
    + intros ->. reflexivity.
    + intros Hascii. unfold m. rewrite slice_units_ascii by exact Hascii.
      reflexivity.
    + unfold Upload.onSubmit_settle. rewrite Hup. simpl. repeat split.
  - unfold Compare.onSubmit_settle. rewrite Hcmp. simpl. repeat split.
Qed.

Lemma non_json_ok_response_differs_witness :
  let w1 := {| Upload.ui :=
                 {| Upload.file := None; Upload.preview := "";
                    Upload.result := None; Upload.fullCompare := None;
                    Upload.loading := true;
                    Upload.error := "Only JPG, PNG, or WEBP images are allowed.";
                    Upload.dragActive := false |};
               Upload.session := ∅; Upload.requests := [];
               Upload.pending := 1 |} in
  let cw1 := {| Compare.ui :=
                  {| Compare.file := None; Compare.preview := "";
                     Compare.loading := true;
                     Compare.error := "File is too large (max 5MB).";
                     Compare.result := None |};
                Compare.session := ∅ |} in
  let page := {| Upload.ok := true;
                 Upload.content_type := Some "text/html; charset=utf-8";
                 Upload.json := Throw "Unexpected token <";
                 Upload.text := Ok "<p>café</p>" |} in
  Upload.error
    (Upload.ui (Upload.run
       (Upload.onSubmit_settle (fun _ => "") (Ok page) true) w1))
  = "<p>café</p>"
  /\ Compare.result
       (Compare.ui (Compare.run
          (Compare.onSubmit_settle (fun _ => "") (Ok page)) cw1))
     = Some (JObj [("error", JStr "<p>café</p>")]).
Proof.
  intros w1 cw1 page.
  pose proof (non_json_ok_response_differs (fun _ => "") w1 cw1 true
                page "<p>café</p>" eq_refl eq_refl eq_refl) as H.
  cbv zeta in H. split.
  - refine (proj1 (proj2 (proj2 (proj1 H))) _ _);
      [vm_compute; lia | discriminate].
  - exact (proj1 (proj2 H)).
Defined.


(** X12. A comparison handed over to the Compare page is shown and, when
    the session storage works, survives a reload: the page opened again
    without a hand-over restores the same document.  With a storage that
    cannot be used the hand-over is still shown but the storage keeps what
    it had, and without a hand-over nothing is done; nothing is done either
    when nothing was ever saved. *)
Theorem handed_over_comparison_survives_reload
    (p : Upload.compare_payload) (cw : Compare.world)
    (stored : gmap string Js.json) :
  let shown := Compare.run (Compare.load_result (Some p) (Compare.session cw) true) cw in
  let fresh := {| Compare.ui := Compare.init;
                  Compare.session := Compare.session shown |} in
  let reloaded := Compare.run
                    (Compare.load_result None (Compare.session fresh) true)
                    fresh in
  let unsaved := Compare.run
                   (Compare.load_result (Some p) (Compare.session cw) false) cw in
  Compare.result (Compare.ui shown) = Some (Upload.stringify p)
  /\ Compare.result (Compare.ui reloaded) = Compare.result (Compare.ui shown)
  /\ Compare.session reloaded = Compare.session shown
  /\ (Compare.result (Compare.ui unsaved) = Some (Upload.stringify p)
      /\ Compare.session unsaved = Compare.session cw)
  /\ Compare.load_result None stored false = []
  /\ (stored !! "lastCompare" = None ->
      Compare.load_result None stored true = []).
Proof.
  cbv zeta. unfold Compare.load_result. cbn.
  rewrite lookup_insert_eq. cbn. repeat split.
  intros ->. reflexivity.
Qed.

(** ** The model comparison chart *)

(** X13. The model comparison chart sets no state once unmounted.  While
    mounted: a rejected fetch shows the error card with the error's
    message, or nothing at all when that message is empty; a non-OK
    response shows the error card with the payload's [error] text, or with
    a fixed message when that field is missing or falsy; an OK response
    that is not JSON shows the chart card over an object that has only the
    body text under [error]; an OK JSON response shows the chart card,
    unless the payload is falsy, in which case nothing is shown. *)
Theorem comparison_chart_load_outcome
    (to_string : Js.json -> string) (fetched : res Upload.response)
    (s : Chart.state) :
  let shown := fun o =>
    Chart.render (Chart.run (Chart.load to_string o true) Chart.init) in
  Chart.run (Chart.load to_string fetched false) s = s
  /\ (forall m, shown (Throw m)
                = if String.eqb m "" then Chart.Nothing else Chart.ErrorCard m)
  /\ (forall r payload e,
        Upload.ok r = false ->
        str_includes "application/json"
                     (default "" (Upload.content_type r)) = true ->
        Upload.json r = Ok payload ->
        optprop "error" (Some payload) = Some (JStr e) -> e <> "" ->
        shown (Ok r) = Chart.ErrorCard e)
  /\ (forall r payload,
        Upload.ok r = false ->
        str_includes "application/json"
                     (default "" (Upload.content_type r)) = true ->
        Upload.json r = Ok payload ->
        truthy (optprop "error" (Some payload)) = false ->
        shown (Ok r) = Chart.ErrorCard "Failed to load model comparison")
  /\ (forall r t,
        Upload.ok r = true ->
        str_includes "application/json"
                     (default "" (Upload.content_type r)) = false ->
        Upload.text r = Ok t ->
        shown (Ok r) = Chart.ChartCard (JObj [("error", JStr t)]))
  /\ (forall r payload,
        Upload.ok r = true ->
        str_includes "application/json"
                     (default "" (Upload.content_type r)) = true ->
        Upload.json r = Ok payload ->
        shown (Ok r) = if truthy (Some payload) then Chart.ChartCard payload
                       else Chart.Nothing).
Proof.
  cbv zeta. split; [|split; [|split; [|split; [|split]]]].
  - unfold Chart.load. destruct (Chart.fetch_payload to_string fetched);
      reflexivity.
  - intros m. unfold Chart.load, Chart.fetch_payload, Chart.render. simpl.
    destruct (String.eqb m ""); reflexivity.
  - intros r payload e Hok Hct Hjson He Hne.
    unfold Chart.load, Chart.fetch_payload. cbn [bind].
    rewrite Hct, Hjson. cbn [bind]. rewrite Hok. cbn [negb].
    rewrite He. unfold or_else. cbn [truthy].
    apply String.eqb_neq in Hne. rewrite Hne. cbn [negb Upload.error_message].
    unfold Chart.render. simpl. rewrite Hne. reflexivity.
  - intros r payload Hok Hct Hjson He.
    unfold Chart.load, Chart.fetch_payload. cbn [bind].
    rewrite Hct, Hjson. cbn [bind]. rewrite Hok. cbn [negb].
    unfold or_else. rewrite He. reflexivity.
  - intros r t Hok Hct Htext.
    unfold Chart.load, Chart.fetch_payload. cbn [bind].
    rewrite Hct, Htext. cbn [bind]. rewrite Hok. reflexivity.
  - intros r payload Hok Hct Hjson.
    unfold Chart.load, Chart.fetch_payload. cbn [bind].
    rewrite Hct, Hjson. cbn [bind]. rewrite Hok. cbn [negb].
    unfold Chart.render. simpl. reflexivity.
Qed.

(** ** Displayed model names *)

Lemma no_underscore_cons (c : ascii) (s : string) :
  str_includes "_" (String c s) = false ->
  Ascii.eqb c "_"%char = false /\ str_includes "_" s = false.
Proof.
  cbn [str_includes String.prefix].
  destruct (ascii_dec "_" c) as [<-|Hne].
  - destruct s; discriminate.
  - intros H. split; [|exact H].
    apply Ascii.eqb_neq. congruence.
Qed.

(** X14. The names of models are displayed with their first underscore
    turned into a space and everything after it kept as it is, further
    underscores included; a name without underscore is displayed unchanged,
    and the length never changes. *)
Theorem replace_underscore_first_only (s pre post : string)
    (Hpre : str_includes "_" pre = false) :
  String.length (replace_underscore s) = String.length s
  /\ replace_underscore pre = pre
  /\ replace_underscore (pre ++ String "_" post) = pre ++ String " " post
  /\ Chart.best_badge {| Chart.cnn_accuracy := None;
                         Chart.svm_accuracy := None;
                         Chart.random_forest_accuracy := None;
                         Chart.best_name := Some (pre ++ String "_" post) |}
     = Some (pre ++ String " " post).
Proof.
  assert (Hrep : replace_underscore (pre ++ String "_" post)
                 = pre ++ String " " post).
  { induction pre as [|c pre IH]; [reflexivity|].
    apply no_underscore_cons in Hpre as [Hc Hpre].
    change (replace_underscore (String c (pre ++ String "_" post))
            = String c (pre ++ String " " post)).
    cbn [replace_underscore]. rewrite Hc, (IH Hpre). reflexivity. }
  split; [|split; [|split]].
  - clear. induction s as [|c s IH]; [reflexivity|].
    cbn [replace_underscore]. destruct (Ascii.eqb c "_"); cbn [String.length];
      [reflexivity | rewrite IH; reflexivity].
  - clear Hrep. induction pre as [|c pre IH]; [reflexivity|].
    apply no_underscore_cons in Hpre as [Hc Hpre].
    cbn [replace_underscore]. rewrite Hc, (IH Hpre). reflexivity.
  - exact Hrep.
  - unfold Chart.best_badge. cbn [Chart.best_name]. rewrite Hrep.
    destruct pre; reflexivity.
Qed.

Lemma replace_underscore_first_only_witness :
  replace_underscore "random_forest_v2" = "random forest_v2".
Proof.
  exact (proj1 (proj2 (proj2
           (replace_underscore_first_only "" "random" "forest_v2" eq_refl)))).
Defined.

(** ** The comparison the Upload form keeps *)

(** What a settlement does to the kept comparison: nothing, or a new one. *)
Lemma settle_fullCompare (to_string : Js.json -> string)
    (fetched : res Upload.response) (storage_ok : bool) (w : Upload.world) :
  let w' := Upload.run (Upload.onSubmit_settle to_string fetched storage_ok) w in
  Upload.fullCompare (Upload.ui w') = Upload.fullCompare (Upload.ui w)
  \/ exists p, Upload.fullCompare (Upload.ui w') = Some p.
Proof.
  unfold Upload.onSubmit_settle.
  destruct (Upload.try_block to_string fetched storage_ok) as [es|m] eqn:Htry;
    [|left; reflexivity].
  apply try_block_ok in Htry.
  destruct Htry as (r & data & label & confidence & model_used
                    & _ & _ & _ & _ & _ & _ & ->).
  destruct (truthy (optprop "models" (Some data))
            && truthy (optprop "selection" (Some data)));
    [destruct storage_ok; right; eexists; reflexivity | left; reflexivity].
Qed.

(** X15. The Upload form never forgets a comparison: once a detection has
    left one, every later step (a new file, a reset, a failed or a
    successful detection) keeps one, so the button that opens the comparison
    chart stays; and a successful detection whose response lacks [models]
    or [selection] sets the new result but keeps the comparison of the
    earlier image. *)
Theorem comparison_is_never_forgotten
    (to_string : Js.json -> string) (a a' : Upload.app)
    (Hstep : Upload.step to_string a a')
    (Hkept : Upload.fullCompare (Upload.ui (Upload.w a)) <> None) :
  Upload.fullCompare (Upload.ui (Upload.w a')) <> None
  /\ (forall r data label storage_ok,
        Upload.ok r = true -> Upload.read_body r = Ok data ->
        prop "label" (Some data) = Ok label ->
        truthy (optprop "models" (Some data))
        && truthy (optprop "selection" (Some data)) = false ->
        let w' := Upload.run
                    (Upload.onSubmit_settle to_string (Ok r) storage_ok)
                    (Upload.w a) in
        Upload.fullCompare (Upload.ui w')
        = Upload.fullCompare (Upload.ui (Upload.w a))
        /\ exists shown, Upload.result (Upload.ui w') = Some shown
                         /\ Upload.label shown = label).
Proof.
  split.
  - destruct Hstep as [a Hen|a fetched ok Hp|a f url|a files url|a b|a|a fetched];
      cbn [Upload.w Upload.health].
    + unfold Upload.onSubmit_request.
      destruct (Upload.file (Upload.ui (Upload.w a))); exact Hkept.
    + cbn [Upload.ui].
      destruct (settle_fullCompare to_string fetched ok (Upload.w a))
        as [->|[p ->]]; [exact Hkept | discriminate].
    + destruct (applyFile_state f url (Upload.w a)) as (_ & _ & -> & _).
      exact Hkept.
    + unfold Upload.onDrop. destruct files as [|f rest]; [exact Hkept|].
      change (Upload.run (?e :: ?es) ?w0)
        with (Upload.run es (Upload.perform w0 e)).
      destruct (applyFile_state (Some f) url
                  (Upload.perform (Upload.w a) (Upload.SetDragActive false)))
        as (_ & _ & -> & _).
      exact Hkept.
    + exact Hkept.
    + exact Hkept.
    + exact Hkept.
  - intros r data label storage_ok Hok Hbody Hl Hms.
    unfold Upload.onSubmit_settle, Upload.try_block, Upload.on_data.
    cbn [bind]. rewrite Hbody. cbn [bind]. rewrite Hok. cbn [negb].
    rewrite Hl. cbn [bind].
    assert (Hc : exists c, prop "confidence" (Some data) = Ok c).
    { destruct data; simpl in Hl |- *; try discriminate; eexists; reflexivity. }
    assert (Hm : exists c, prop "model_used" (Some data) = Ok c).
    { destruct data; simpl in Hl |- *; try discriminate; eexists; reflexivity. }
    destruct Hc as [c ->], Hm as [mu ->]. cbn [bind]. rewrite Hms.
    simpl. split; [reflexivity|]. eexists. split; reflexivity.
Qed.

Lemma comparison_is_never_forgotten_witness :
  let p := {| Upload.models := Some (JObj [("cnn", JObj [])]);
              Upload.selection := Some (JObj [("model", JStr "cnn")]);
              Upload.final_label := Some (JStr "organic");
              Upload.final_confidence := Some (JNum 93) |} in
  let a := {| Upload.w :=
                {| Upload.ui :=
                     {| Upload.file := None; Upload.preview := "";
                        Upload.result := None; Upload.fullCompare := Some p;
                        Upload.loading := false; Upload.error := "";
                        Upload.dragActive := false |};
                   Upload.session := ∅; Upload.requests := [];
                   Upload.pending := 0 |};
              Upload.health := Health.init |} in
  Upload.fullCompare
    (Upload.ui (Upload.run Upload.reset (Upload.w a))) <> None.
Proof.
  intros p a.
  refine (proj1 (comparison_is_never_forgotten (fun _ => "") a
                   {| Upload.w := Upload.run Upload.reset (Upload.w a);
                      Upload.health := Upload.health a |}
                   (Upload.step_reset _ a) _)).
  discriminate.
Defined.

(** X16. Leaving the file dialog of the Compare page without a file clears
    the selection, the preview, the result and the error, silently, where
    the Upload form reports that no file is selected; both end with no
    file and no preview. *)
Theorem cancelled_dialog_on_compare_is_silent
    (url : string) (cw : Compare.world) (w : Upload.world) :
  let cw' := Compare.run (Compare.onFile None url) cw in
  let w' := Upload.run (Upload.onFileChange [] url) w in
  (Compare.file (Compare.ui cw') = None
   /\ Compare.preview (Compare.ui cw') = ""
   /\ Compare.result (Compare.ui cw') = None
   /\ Compare.error (Compare.ui cw') = ""
   /\ Compare.session cw' = Compare.session cw)
  /\ (Upload.file (Upload.ui w') = None
      /\ Upload.preview (Upload.ui w') = ""
      /\ Upload.error (Upload.ui w') = "No file selected"
      /\ Upload.error_shown (Upload.ui w') = true).
Proof.
  cbv zeta. simpl. repeat split.
Qed.

(** ** Errors reported by the server *)

(** X17. When the server answers with a non-OK status and a JSON body whose
    [error] is a non-empty string, that string is the error shown, on the
    Upload form and on the Compare page alike, with no result and the
    loading flag cleared; when the fetch itself fails, the error shown is
    the failure's message, or Request failed when it has none. *)
Theorem server_error_text_is_shown
    (to_string : Js.json -> string)
    (w : Upload.world) (cw : Compare.world) (storage_ok : bool)
    (f g : File) (r : Upload.response) (payload : Js.json) (e m : string)
    (Hfile : Upload.file (Upload.ui w) = Some f)
    (Hcfile : Compare.file (Compare.ui cw) = Some g)
    (Hok : Upload.ok r = false)
    (Htype : str_includes "application/json"
                          (default "" (Upload.content_type r)) = true)
    (Hjson : Upload.json r = Ok payload)
    (Herror : optprop "error" (Some payload) = Some (JStr e))
    (Hne : e <> "") :
  let after := fun o =>
    Upload.ui (Upload.run (Upload.onSubmit to_string (Upload.ui w) o storage_ok) w) in
  let cafter := fun o =>
    Compare.ui (Compare.run (Compare.onSubmit to_string (Compare.ui cw) o) cw) in
  (Upload.error (after (Ok r)) = e
   /\ Upload.result (after (Ok r)) = None
   /\ Upload.loading (after (Ok r)) = false)
  /\ (Compare.error (cafter (Ok r)) = e
      /\ Compare.result (cafter (Ok r)) = None
      /\ Compare.loading (cafter (Ok r)) = false)
  /\ (Upload.error (after (Throw m)) = str_or m "Request failed"
      /\ Compare.error (cafter (Throw m)) = str_or m "Request failed").
Proof.
  apply String.eqb_neq in Hne.
  assert (Hmsg : Upload.error_message to_string
                   (or_else (optprop "error" (Some payload))
                            (Some (JStr "Request failed"))) = e).
  { rewrite Herror. unfold or_else. cbn [truthy]. rewrite Hne. reflexivity. }
  assert (He : str_or e "Request failed" = e).
  { unfold str_or. rewrite Hne. reflexivity. }
  assert (Hup : Upload.try_block to_string (Ok r) storage_ok = Throw e).
  { unfold Upload.try_block. cbn [bind]. unfold Upload.read_body.
    rewrite Htype, Hjson. cbn [bind]. unfold Upload.on_data.
    rewrite Hok. cbn [negb]. rewrite Hmsg. reflexivity. }
  assert (Hcmp : Compare.try_block to_string (Ok r) = Throw e).
  { unfold Compare.try_block. cbn [bind]. unfold Compare.read_data.
    rewrite Htype, Hjson. cbn [bind]. rewrite Hok. cbn [negb].
    rewrite Hmsg. reflexivity. }
  cbv zeta.
  unfold Upload.onSubmit, Upload.onSubmit_request, Upload.onSubmit_settle,
    Compare.onSubmit, Compare.onSubmit_request, Compare.onSubmit_settle.
  rewrite Hfile, Hcfile, Hup, Hcmp. simpl. rewrite He. repeat split.
Qed.

Lemma server_error_text_is_shown_witness :
  let mango := {| type := "image/jpeg"; size := 1000 |} in
  let w := {| Upload.ui :=
                {| Upload.file := Some mango; Upload.preview := "blob:1";
                   Upload.result := None; Upload.fullCompare := None;
                   Upload.loading := false; Upload.error := "";
                   Upload.dragActive := false |};
              Upload.session := ∅; Upload.requests := [];
              Upload.pending := 0 |} in
  let cw := {| Compare.ui :=
                 {| Compare.file := Some mango; Compare.preview := "blob:2";
                    Compare.loading := false; Compare.error := "";
                    Compare.result := None |};
               Compare.session := ∅ |} in
  let refused := {| Upload.ok := false;
                    Upload.content_type := Some "application/json";
                    Upload.json := Ok (JObj [("error", JStr "Not a mango")]);
                    Upload.text := Throw "body used" |} in
  Upload.error
    (Upload.ui (Upload.run
       (Upload.onSubmit (fun _ => "") (Upload.ui w) (Ok refused) true) w))
  = "Not a mango".
Proof.
  intros mango w cw refused.
  pose proof (server_error_text_is_shown (fun _ => "") w cw true mango mango
                refused (JObj [("error", JStr "Not a mango")])
                "Not a mango" ""
                eq_refl eq_refl eq_refl eq_refl eq_refl eq_refl) as H.
  cbv zeta in H. refine (proj1 (proj1 (H _))). discriminate.
Defined.

(** X18. The body of a response is decoded as JSON as soon as its content
    type contains application/json, whatever comes before or after it (a
    charset parameter, say); a response without the header is read as
    text: the Compare page wraps the text in an object, the Upload form
    throws its first 200 UTF-16 code units, or a fixed message when the
    text is empty. *)
Theorem content_type_parameters_are_ignored
    (before after : string) (r : Upload.response)
    (Htype : Upload.content_type r
             = Some (before ++ "application/json" ++ after)) :
  Upload.read_body r = Upload.json r
  /\ Compare.read_data r = Upload.json r
  /\ (forall r0 t, Upload.content_type r0 = None -> Upload.text r0 = Ok t ->
        Compare.read_data r0 = Ok (JObj [("error", JStr t)])
        /\ Upload.read_body r0
           = Throw (str_or (slice_units 200 0 t)
                           "Non-JSON response from server")).
Proof.
  assert (Hinc : str_includes "application/json"
                   (before ++ "application/json" ++ after) = true).
  { clear Htype. induction before as [|c before IH].
    - destruct after; reflexivity.
    - change (String c before ++ "application/json" ++ after)
        with (String c (before ++ "application/json" ++ after)).
      cbn [str_includes]. rewrite IH.
      destruct (String.prefix _ _); reflexivity. }
  unfold Upload.read_body, Compare.read_data. rewrite Htype.
  change (default "" (Some (before ++ "application/json" ++ after)))
    with (before ++ "application/json" ++ after).
  rewrite Hinc. split; [reflexivity|]. split; [reflexivity|].
  intros r0 t -> ->. split; reflexivity.
Qed.

Lemma content_type_parameters_are_ignored_witness :
  let r := {| Upload.ok := true;
              Upload.content_type := Some "application/json; charset=utf-8";
              Upload.json := Ok (JObj [("label", JStr "organic")]);
              Upload.text := Throw "body used" |} in
  Upload.read_body r = Ok (JObj [("label", JStr "organic")]).
Proof.
  intros r.
  exact (proj1 (content_type_parameters_are_ignored "" "; charset=utf-8" r
                  eq_refl)).
Defined.
